(** * pynput: the macOS keyboard backend ([lib/pynput/keyboard/_darwin.py])

    A shallow embedding of the key model ([KeyCode], the [Key] enumeration),
    the event synthesizer ([KeyCode._event], [Controller._handle]) and the
    event interpreter ([Listener._event_to_key], [Listener._handle]),
    followed by the properties stated about them.

    Python integers are unbounded, so they are [Z]; [&], [|], [<<] and [>>]
    are [Z.land], [Z.lor], [Z.shiftl] and [Z.shiftr].  Python's [None] is
    [None] of an [option].  Strings are [string]. *)

From Stdlib Require Import ZArith Lia.
From stdpp Require Import gmap strings list fin_maps.

Open Scope Z_scope.

(** ** Exceptions

    The two exceptions the module can meet: [TypeError] (an arithmetic
    operator applied to [None]) and [IndexError] (the one [Listener._handle]
    catches). *)

Inductive exn : Set := TypeError | IndexError.

Inductive result (A : Type) : Type :=
| Return (a : A)
| Raise (e : exn).
Arguments Return {A} a.
Arguments Raise {A} e.

(** ** Key codes *)

(** Modelled from the spec: [_base.KeyCode], the base class of
    [_darwin.KeyCode], is not part of the sources.  A key code carries an
    optional virtual key, an optional character and, as the one platform
    extension declared in [_PLATFORM_EXTENSIONS], the optional media flag
    (class level default [None]).  Two key codes are equal iff all their
    attributes are equal, which is Leibniz equality of the record. *)
Record KeyCode : Set := {
  vk : option Z;
  char : option string;
  _is_media : option bool }.

#[global] Instance KeyCode_eq_dec : EqDecision KeyCode.
Proof. solve_decision. Defined.

#[global] Instance KeyCode_countable : Countable KeyCode.
Proof.
  apply (inj_countable' (fun k => (vk k, char k, _is_media k))
                        (fun p => Build_KeyCode p.1.1 p.1.2 p.2)).
  by intros [].
Defined.

(** Modelled from the spec: [from_vk(vk, **kwargs)] of [_base.KeyCode]
    binds a key code to a virtual key; the keyword arguments used in this
    file are [char] and [_is_media]. *)
Definition from_vk (v : Z) (c : option string) (media : option bool)
  : KeyCode :=
  {| vk := Some v; char := c; _is_media := media |}.

(** Modelled from the spec: [from_char(char, **kwargs)] of [_base.KeyCode]
    binds a key code to a character; the keyword argument used in this file
    is [vk]. *)
Definition from_char (c : string) (v : option Z) : KeyCode :=
  {| vk := v; char := Some c; _is_media := None |}.

(** [_from_media(vk)]: [cls.from_vk(vk, _is_media=True)]. *)
Definition _from_media (v : Z) : KeyCode := from_vk v None (Some true).

(** The constants of [hidsystem/ev_keymap.h]. *)
Definition NX_KEYTYPE_SOUND_UP : Z := 0.
Definition NX_KEYTYPE_SOUND_DOWN : Z := 1.
Definition NX_KEYTYPE_BRIGHTNESS_UP : Z := 2.
Definition NX_KEYTYPE_BRIGHTNESS_DOWN : Z := 3.
Definition NX_KEYTYPE_CAPS_LOCK : Z := 4.
Definition NX_KEYTYPE_HELP : Z := 5.
Definition NX_POWER_KEY : Z := 6.
Definition NX_KEYTYPE_MUTE : Z := 7.
Definition NX_UP_ARROW_KEY : Z := 8.
Definition NX_DOWN_ARROW_KEY : Z := 9.
Definition NX_KEYTYPE_NUM_LOCK : Z := 10.
Definition NX_KEYTYPE_CONTRAST_UP : Z := 11.
Definition NX_KEYTYPE_CONTRAST_DOWN : Z := 12.
Definition NX_KEYTYPE_LAUNCH_PANEL : Z := 13.
Definition NX_KEYTYPE_EJECT : Z := 14.
Definition NX_KEYTYPE_VIDMIRROR : Z := 15.
Definition NX_KEYTYPE_PLAY : Z := 16.
Definition NX_KEYTYPE_NEXT : Z := 17.
Definition NX_KEYTYPE_PREVIOUS : Z := 18.
Definition NX_KEYTYPE_FAST : Z := 19.
Definition NX_KEYTYPE_REWIND : Z := 20.
Definition NX_KEYTYPE_ILLUMINATION_UP : Z := 21.
Definition NX_KEYTYPE_ILLUMINATION_DOWN : Z := 22.
Definition NX_KEYTYPE_ILLUMINATION_TOGGLE : Z := 23.

Definition kSystemDefinedEventMediaKeysSubtype : Z := 8.

(** ** The [Key] enumeration *)

Module Key.

(** A member of an [enum.Enum] class has a name and a value. *)
Record Member : Set := { name : string; value : KeyCode }.

#[global] Instance eq_dec : EqDecision Member.
Proof. solve_decision. Defined.

#[global] Instance countable : Countable Member.
Proof.
  apply (inj_countable' (fun m => (name m, value m))
                        (fun p => Build_Member p.1 p.2)).
  by intros [].
Defined.

Definition vk_ (v : Z) : KeyCode := from_vk v None None.
Definition vk_char (v : Z) (c : string) : KeyCode :=
  from_vk v (Some c) None.

(** The body of [class Key(enum.Enum)], one pair per assignment, in the
    order of the source. *)
Definition body : list (string * KeyCode) :=
  [ ("alt", vk_ 0x3A);
    ("alt_l", vk_ 0x3A);
    ("alt_r", vk_ 0x3D);
    ("alt_gr", vk_ 0x3D);
    ("backspace", vk_ 0x33);
    ("caps_lock", vk_ 0x39);
    ("cmd", vk_ 0x37);
    ("cmd_l", vk_ 0x37);
    ("cmd_r", vk_ 0x36);
    ("ctrl", vk_ 0x3B);
    ("ctrl_l", vk_ 0x3B);
    ("ctrl_r", vk_ 0x3E);
    ("delete", vk_ 0x75);
    ("down", vk_ 0x7D);
    ("end", vk_ 0x77);
    ("enter", vk_ 0x24);
    ("esc", vk_ 0x35);
    ("f1", vk_ 0x7A);
    ("f2", vk_ 0x78);
    ("f3", vk_ 0x63);
    ("f4", vk_ 0x76);
    ("f5", vk_ 0x60);
    ("f6", vk_ 0x61);
    ("f7", vk_ 0x62);
    ("f8", vk_ 0x64);
    ("f9", vk_ 0x65);
    ("f10", vk_ 0x6D);
    ("f11", vk_ 0x67);
    ("f12", vk_ 0x6F);
    ("f13", vk_ 0x69);
    ("f14", vk_ 0x6B);
    ("f15", vk_ 0x71);
    ("f16", vk_ 0x6A);
    ("f17", vk_ 0x40);
    ("f18", vk_ 0x4F);
    ("f19", vk_ 0x50);
    ("f20", vk_ 0x5A);
    ("home", vk_ 0x73);
    ("left", vk_ 0x7B);
    ("page_down", vk_ 0x79);
    ("page_up", vk_ 0x74);
    ("right", vk_ 0x7C);
    ("shift", vk_ 0x38);
    ("shift_l", vk_ 0x38);
    ("shift_r", vk_ 0x3C);
    ("space", vk_char 0x31 " ");
    ("tab", vk_ 0x30);
    ("up", vk_ 0x7E);
    ("insert", vk_ 0x72);
    ("one", vk_char 0x12 "1");
    ("two", vk_char 0x13 "2");
    ("three", vk_char 0x14 "3");
    ("four", vk_char 0x15 "4");
    ("five", vk_char 0x17 "5");
    ("six", vk_char 0x16 "6");
    ("seven", vk_char 0x1A "7");
    ("eight", vk_char 0x1C "8");
    ("nine", vk_char 0x19 "9");
    ("kp_zero", vk_ 0x52);
    ("kp_one", vk_ 0x53);
    ("kp_two", vk_ 0x54);
    ("kp_three", vk_ 0x55);
    ("kp_four", vk_ 0x56);
    ("kp_five", vk_ 0x57);
    ("kp_six", vk_ 0x58);
    ("kp_seven", vk_ 0x59);
    ("kp_eight", vk_ 0x5B);
    ("kp_nine", vk_ 0x5C);
    ("kp_equals", vk_ 0x51);
    ("kp_divide", vk_ 0x4B);
    ("kp_multiply", vk_ 0x43);
    ("kp_minus", vk_ 0x4E);
    ("kp_add", vk_ 0x45);
    ("kp_enter", vk_ 0x4C);
    ("kp_decimal", vk_ 0x41);
    ("media_volume_up", _from_media NX_KEYTYPE_SOUND_UP);
    ("media_volume_down", _from_media NX_KEYTYPE_SOUND_DOWN);
    ("brightness_up", _from_media NX_KEYTYPE_BRIGHTNESS_UP);
    ("brightness_down", _from_media NX_KEYTYPE_BRIGHTNESS_DOWN);
    ("power", _from_media NX_POWER_KEY);
    ("media_volume_mute", _from_media NX_KEYTYPE_MUTE);
    ("num_lock", _from_media NX_KEYTYPE_NUM_LOCK);
    ("contrast_up", _from_media NX_KEYTYPE_CONTRAST_UP);
    ("contrast_down", _from_media NX_KEYTYPE_CONTRAST_DOWN);
    ("launch_panel", _from_media NX_KEYTYPE_LAUNCH_PANEL);
    ("media_eject", _from_media NX_KEYTYPE_EJECT);
    ("vidmirror", _from_media NX_KEYTYPE_VIDMIRROR);
    ("media_play_pause", _from_media NX_KEYTYPE_PLAY);
    ("media_next", _from_media NX_KEYTYPE_NEXT);
    ("media_previous", _from_media NX_KEYTYPE_PREVIOUS);
    ("media_fast", _from_media NX_KEYTYPE_FAST);
    ("media_rewind", _from_media NX_KEYTYPE_REWIND);
    ("illumination_up", _from_media NX_KEYTYPE_ILLUMINATION_UP);
    ("illumination_down", _from_media NX_KEYTYPE_ILLUMINATION_DOWN);
    ("illumination_toggle", _from_media NX_KEYTYPE_ILLUMINATION_TOGGLE)
  ]%string.

(** *** What [enum.Enum] makes of the class body

    The metaclass of [enum.Enum] goes through the assignments in order.  For
    each it searches the members defined so far ([_member_map_], in insertion
    order) for one whose value [==] the new value.  If there is one, the new
    name becomes an alias: it is bound to that existing member and no member
    is created.  Otherwise a member with the new name is created and its
    name is appended to [_member_names_].  Iterating over the class
    ([for key in Key]) goes through [_member_names_], so it yields every
    member once, in definition order, and never an alias. *)

Record EnumClass : Set := {
  _member_names_ : list string;
  _member_map_ : list (string * Member) }.

Definition canonical (v : KeyCode) (map : list (string * Member))
  : option Member :=
  snd <$> List.find (fun nm => bool_decide (value nm.2 = v)) map.

Definition define (cls : EnumClass) (assignment : string * KeyCode)
  : EnumClass :=
  let '(n, v) := assignment in
  match canonical v (_member_map_ cls) with
  | Some m =>
      {| _member_names_ := _member_names_ cls;
         _member_map_ := _member_map_ cls ++ [(n, m)] |}
  | None =>
      {| _member_names_ := _member_names_ cls ++ [n];
         _member_map_ := _member_map_ cls ++ [(n, {| name := n; value := v |})] |}
  end.

Definition cls : EnumClass :=
  foldl define {| _member_names_ := []; _member_map_ := [] |} body.

(** [Key.<n>] and [Key[n]]: the member bound to name [n]. *)
Definition getattr (n : string) : option Member :=
  snd <$> List.find (fun nm => bool_decide (nm.1 = n)) (_member_map_ cls).

(** [list(Key)], the members [for key in Key] yields. *)
Definition members : list Member :=
  omap getattr (_member_names_ cls).

(** Reading a name that is bound: the result has type [Member] only when
    the lookup succeeds, so each definition below would be rejected if
    the class had no such attribute. *)
Definition bound {A : Type} (o : option A)
  : match o with Some _ => A | None => unit end :=
  match o with Some a => a | None => tt end.

Definition alt : Member := Eval vm_compute in bound (getattr "alt").
Definition alt_l : Member := Eval vm_compute in bound (getattr "alt_l").
Definition alt_r : Member := Eval vm_compute in bound (getattr "alt_r").
Definition alt_gr : Member := Eval vm_compute in bound (getattr "alt_gr").
Definition caps_lock : Member := Eval vm_compute in bound (getattr "caps_lock").
Definition cmd : Member := Eval vm_compute in bound (getattr "cmd").
Definition cmd_l : Member := Eval vm_compute in bound (getattr "cmd_l").
Definition cmd_r : Member := Eval vm_compute in bound (getattr "cmd_r").
Definition ctrl : Member := Eval vm_compute in bound (getattr "ctrl").
Definition ctrl_l : Member := Eval vm_compute in bound (getattr "ctrl_l").
Definition ctrl_r : Member := Eval vm_compute in bound (getattr "ctrl_r").
Definition shift : Member := Eval vm_compute in bound (getattr "shift").
Definition shift_l : Member := Eval vm_compute in bound (getattr "shift_l").
Definition shift_r : Member := Eval vm_compute in bound (getattr "shift_r").
Definition space : Member := Eval vm_compute in bound (getattr "space").
Definition media_play_pause : Member :=
  Eval vm_compute in bound (getattr "media_play_pause").

End Key.

(** ** Quartz

    The Quartz bindings are the operating system's, not this module's.  An
    event is modelled by the fields the module writes and reads; what the
    operating system alone decides is gathered in [OS]. *)

Module Quartz.

Definition kCGEventKeyDown : Z := 10.
Definition kCGEventKeyUp : Z := 11.
Definition kCGEventFlagsChanged : Z := 12.
Definition NSSystemDefined : Z := 14.

Definition kCGEventFlagMaskShift : Z := 0x00020000.
Definition kCGEventFlagMaskControl : Z := 0x00040000.
Definition kCGEventFlagMaskAlternate : Z := 0x00080000.
Definition kCGEventFlagMaskCommand : Z := 0x00100000.

Record CGEvent : Set := {
  type : Z;
  keycode : Z;                      (* field kCGKeyboardEventKeycode *)
  flags : Z;
  unicode_string : option string;   (* set by CGEventKeyboardSetUnicodeString *)
  location : Z * Z;
  timestamp : Z;
  windowNumber : Z;
  context : Z;
  subtype : Z;
  data1 : Z;
  data2 : Z }.

Record OS : Type := {
  (* the string the active layout yields for a key code under given flags *)
  layout_string : Z -> Z -> string;
  (* the key code field of an event that was made from an [NSEvent] *)
  other_keycode : Z -> Z -> Z }.

Definition CGEventCreateKeyboardEvent (virtualKey : Z) (keyDown : bool)
  : CGEvent :=
  {| type := if keyDown then kCGEventKeyDown else kCGEventKeyUp;
     keycode := virtualKey;
     flags := 0;
     unicode_string := None;
     location := (0, 0); timestamp := 0; windowNumber := 0; context := 0;
     subtype := 0; data1 := 0; data2 := 0 |}.

(** [NSEvent.otherEventWithType_location_modifierFlags_timestamp_
    windowNumber_context_subtype_data1_data2_(...).CGEvent()]. *)
Definition otherEventWithType (os : OS) (type_ : Z) (location_ : Z * Z)
    (modifierFlags timestamp_ windowNumber_ context_ subtype_ data1_ data2_ : Z)
  : CGEvent :=
  {| type := type_;
     keycode := other_keycode os subtype_ data1_;
     flags := modifierFlags;
     unicode_string := None;
     location := location_; timestamp := timestamp_;
     windowNumber := windowNumber_; context := context_;
     subtype := subtype_; data1 := data1_; data2 := data2_ |}.

Definition CGEventSetFlags (event : CGEvent) (flags_ : Z) : CGEvent :=
  {| type := type event; keycode := keycode event; flags := flags_;
     unicode_string := unicode_string event;
     location := location event; timestamp := timestamp event;
     windowNumber := windowNumber event; context := context event;
     subtype := subtype event; data1 := data1 event; data2 := data2 event |}.

(** The first [stringLength] characters of the string become the payload. *)
Definition CGEventKeyboardSetUnicodeString (event : CGEvent)
    (stringLength : nat) (unicodeString : string) : CGEvent :=
  {| type := type event; keycode := keycode event; flags := flags event;
     unicode_string := Some (String.substring 0 stringLength unicodeString);
     location := location event; timestamp := timestamp event;
     windowNumber := windowNumber event; context := context event;
     subtype := subtype event; data1 := data1 event; data2 := data2 event |}.

Definition CGEventGetFlags (event : CGEvent) : Z := flags event.
Definition CGEventGetType (event : CGEvent) : Z := type event.

(** [CGEventGetIntegerValueField(event, kCGKeyboardEventKeycode)]. *)
Definition CGEventGetKeycode (event : CGEvent) : Z := keycode event.

(** [CGEventKeyboardGetUnicodeString(event, 100, None, None)]: the length
    and the string, the payload if one was set and else what the layout
    yields. *)
Definition CGEventKeyboardGetUnicodeString (os : OS) (event : CGEvent)
  : Z * string :=
  let chars :=
    match unicode_string event with
    | Some s => s
    | None => layout_string os (keycode event) (flags event)
    end in
  (Z.of_nat (String.length chars), chars).

End Quartz.

(** ** Python builtins *)

(** Truth value of an integer. *)
Definition truthy (n : Z) : bool := negb (n =? 0).

(** [str.isprintable], for characters below U+0100: the control characters
    U+0000..U+001F and U+007F..U+009F, the no-break space U+00A0 and the
    soft hyphen U+00AD are not printable, every other one is.  The empty
    string is printable. *)
Definition char_isprintable (c : Ascii.ascii) : bool :=
  let n := Z.of_nat (Ascii.nat_of_ascii c) in
  ((0x20 <=? n) && (n <=? 0x7E)) || ((0xA1 <=? n) && negb (n =? 0xAD)).

Fixpoint isprintable (s : string) : bool :=
  match s with
  | EmptyString => true
  | String c s' => char_isprintable c && isprintable s'
  end.

(** ** The event synthesizer *)

Section Synthesizer.

Context (os : Quartz.OS).

(** [mapping.get(self.char)]: the keys of the layout mapping are
    characters, so [None] is not among them. *)
Definition mapping_get (mapping : gmap string Z) (c : option string)
  : option Z :=
  match c with
  | Some s => mapping !! s
  | None => None
  end.

(** [self.vk or mapping.get(self.char)]: the left operand is taken when it
    is true, which [None] and [0] are not. *)
Definition resolve_vk (self : KeyCode) (mapping : gmap string Z) : option Z :=
  match vk self with
  | Some v => if truthy v then Some v else mapping_get mapping (char self)
  | None => mapping_get mapping (char self)
  end.

Definition modifier_flags (modifiers : gset Key.Member) : Z :=
  Z.lor (Z.lor (Z.lor (Z.lor 0
    (if bool_decide (Key.alt ∈ modifiers)
     then Quartz.kCGEventFlagMaskAlternate else 0))
    (if bool_decide (Key.cmd ∈ modifiers)
     then Quartz.kCGEventFlagMaskCommand else 0))
    (if bool_decide (Key.ctrl ∈ modifiers)
     then Quartz.kCGEventFlagMaskControl else 0))
    (if bool_decide (Key.shift ∈ modifiers)
     then Quartz.kCGEventFlagMaskShift else 0).

(** [KeyCode._event(self, modifiers, mapping, is_pressed)]. *)
Definition _event (self : KeyCode) (modifiers : gset Key.Member)
    (mapping : gmap string Z) (is_pressed : bool) : result Quartz.CGEvent :=
  let vk_ := resolve_vk self mapping in
  let created :=
    if bool_decide (_is_media self = Some true) then
      match vk self with
      | Some self_vk =>
          Return (Quartz.otherEventWithType os
            Quartz.NSSystemDefined
            (0, 0)
            (if is_pressed then 0xa00 else 0xb00)
            0
            0
            0
            8
            (Z.lor (Z.shiftl self_vk 16)
                   (Z.shiftl (if is_pressed then 0xa else 0xb) 8))
            (-1))
      | None => Raise TypeError     (* [None << 16] *)
      end
    else
      Return (Quartz.CGEventCreateKeyboardEvent
                (match vk_ with None => 0 | Some v => v end) is_pressed) in
  match created with
  | Raise e => Raise e
  | Return result1 =>
      let result2 := Quartz.CGEventSetFlags result1 (modifier_flags modifiers) in
      match vk_, char self with
      | None, Some c =>
          Return (Quartz.CGEventKeyboardSetUnicodeString
                    result2 (String.length c) c)
      | _, _ => Return result2
      end
  end.

End Synthesizer.

(** What a listener callback receives and a controller is given: a member
    of [Key] or a plain key code. *)
Inductive KeyVal : Set :=
| Named (m : Key.Member)
| Generic (k : KeyCode).

#[global] Instance KeyVal_eq_dec : EqDecision KeyVal.
Proof. solve_decision. Defined.

Module Controller.

(** [Controller._handle(key, is_press)]: the event handed to
    [CGEventPost].  [key not in (k for k in Key)] holds for a plain key
    code, which is equal to no member. *)
Definition _handle (os : Quartz.OS) (modifiers : gset Key.Member)
    (_mapping : gmap string Z) (key : KeyVal) (is_press : bool)
  : result Quartz.CGEvent :=
  _event os
    (match key with Named m => Key.value m | Generic k => k end)
    modifiers _mapping is_press.

End Controller.

(** ** The event interpreter *)

(** A call of one of the listener's callbacks; [None] is Python's [None]. *)
Inductive Callback : Set :=
| on_press (key : option KeyVal)
| on_release (key : option KeyVal).

Module Listener.

(** [{(key.value.vk, key.value._is_media): key for key in Key}]: the
    members are entered in iteration order, a later entry replacing an
    earlier one with the same key. *)
Definition _SPECIAL_KEYS : gmap (option Z * option bool) Key.Member :=
  foldl (fun d key => <[(vk (Key.value key), _is_media (Key.value key)) := key]> d)
        ∅ Key.members.

(** The dictionary display is evaluated left to right. *)
Definition _MODIFIER_FLAGS : gmap Key.Member Z :=
  foldl (fun d (kv : Key.Member * Z) => <[kv.1 := kv.2]> d) ∅
    [ (Key.alt, Quartz.kCGEventFlagMaskAlternate);
      (Key.alt_l, Quartz.kCGEventFlagMaskAlternate);
      (Key.alt_r, Quartz.kCGEventFlagMaskAlternate);
      (Key.cmd, Quartz.kCGEventFlagMaskCommand);
      (Key.cmd_l, Quartz.kCGEventFlagMaskCommand);
      (Key.cmd_r, Quartz.kCGEventFlagMaskCommand);
      (Key.ctrl, Quartz.kCGEventFlagMaskControl);
      (Key.ctrl_l, Quartz.kCGEventFlagMaskControl);
      (Key.ctrl_r, Quartz.kCGEventFlagMaskControl);
      (Key.shift, Quartz.kCGEventFlagMaskShift);
      (Key.shift_l, Quartz.kCGEventFlagMaskShift);
      (Key.shift_r, Quartz.kCGEventFlagMaskShift) ].

(** [self._MODIFIER_FLAGS.get(key, 0)]: the keys of the dictionary are
    members of [Key]; [None] and plain key codes equal none of them. *)
Definition _MODIFIER_FLAGS_get (key : option KeyVal) : Z :=
  match key with
  | Some (Named m) => default 0 (_MODIFIER_FLAGS !! m)
  | _ => 0
  end.

(** The part of the listener's state this module owns. *)
Record t : Set := { _flags : Z }.

(** [Listener.__init__]. *)
Definition __init__ : t := {| _flags := 0 |}.

Section Interpreter.

Context (os : Quartz.OS).

(** [SYMBOLS] of [pynput._util.darwin_vks], which is not part of the
    sources: a table from key code to character. *)
Context (SYMBOLS : gmap Z string).

(** [Listener._event_to_key(event)]. *)
Definition _event_to_key (event : Quartz.CGEvent) : result KeyVal :=
  let vk := Quartz.CGEventGetKeycode event in
  let event_type := Quartz.CGEventGetType event in
  let is_media :=
    if bool_decide (event_type = Quartz.NSSystemDefined)
    then Some true else None in
  (* First try special keys... *)
  let key := (Some vk, is_media) in
  match _SPECIAL_KEYS !! key with
  | Some special => Return (Named special)
  | None =>
      (* ...then try characters... *)
      let '(length, chars) := Quartz.CGEventKeyboardGetUnicodeString os event in
      (* a [str] has [isprintable]: the [except AttributeError] clause,
         which asks [isalnum] instead, is not entered *)
      let printable := isprintable chars in
      let otherwise :=
        if 0 <? length then Return (Generic (from_char chars (Some vk)))
        (* ...and fall back on a virtual key code *)
        else Return (Generic (from_vk vk None None)) in
      match SYMBOLS !! vk with
      | Some symbol =>
          if negb printable
             && truthy (Z.land (Quartz.CGEventGetFlags event)
                               Quartz.kCGEventFlagMaskControl)
          then Return (Generic (from_char symbol (Some vk)))
          else otherwise
      | None => otherwise
      end
  end.

(** The second [try] block of [Listener._handle], without its [finally]
    clause: the callbacks made for [key], in order. *)
Definition _handle_callbacks (key : option KeyVal) (event_type : Z)
    (event : Quartz.CGEvent) : list Callback :=
  if bool_decide (event_type = Quartz.kCGEventKeyDown) then
    (* This is a normal key press *)
    [on_press key]
  else if bool_decide (event_type = Quartz.kCGEventKeyUp) then
    (* This is a normal key release *)
    [on_release key]
  else if bool_decide (key = Some (Named Key.caps_lock)) then
    [on_press key; on_release key]
  else if bool_decide (event_type = Quartz.NSSystemDefined) then
    (* [sys_event = Quartz.NSEvent.eventWithCGEvent_(event)] *)
    if bool_decide (Quartz.subtype event = kSystemDefinedEventMediaKeysSubtype)
    then
      let key :=
        (Some (Z.shiftr (Z.land (Quartz.data1 event) 0xffff0000) 16),
         Some true) in
      match _SPECIAL_KEYS !! key with
      | Some special =>
          let flags := Z.land (Quartz.data1 event) 0x0000ffff in
          let is_press :=
            bool_decide (Z.shiftr (Z.land flags 0xff00) 8 = 0x0a) in
          if is_press then [on_press (Some (Named special))]
          else [on_release (Some (Named special))]
      | None => []
      end
    else []
  else
    let flags := Quartz.CGEventGetFlags event in
    let is_press := Z.land flags (_MODIFIER_FLAGS_get key) in
    if truthy is_press then [on_press key] else [on_release key].

(** [Listener._handle(_proxy, event_type, event, _refcon)]: the callbacks
    made and the listener afterwards.  An exception of the first [try]
    block other than [IndexError] leaves the method at once. *)
Definition _handle (self : t) (event_type : Z) (event : Quartz.CGEvent)
  : result (list Callback * t) :=
  match
    match _event_to_key event with
    | Return key => Return (Some key)
    | Raise IndexError => Return None
    | Raise e => Raise e
    end
  with
  | Raise e => Raise e
  | Return key =>
      Return (_handle_callbacks key event_type event,
              {| _flags := Quartz.CGEventGetFlags event |})
  end.

End Interpreter.

End Listener.

(** * Properties *)

Arguments Listener._SPECIAL_KEYS : simpl never.
Arguments Listener._MODIFIER_FLAGS : simpl never.

(** ** The enumeration and the decode table *)

(** The names the class body binds twice are aliases: one member, which
    carries the name of the first assignment. *)
Lemma Key_aliases :
  Key.alt_l = Key.alt /\ Key.alt_gr = Key.alt_r /\ Key.cmd_l = Key.cmd /\
  Key.ctrl_l = Key.ctrl /\ Key.shift_l = Key.shift.
Proof. repeat split; reflexivity. Qed.

Lemma Key_sides_differ :
  Key.alt_r <> Key.alt /\ Key.cmd_r <> Key.cmd /\
  Key.ctrl_r <> Key.ctrl /\ Key.shift_r <> Key.shift.
Proof. repeat split; discriminate. Qed.

(** The members every name of the class is bound to. *)
Definition bound_members : list Key.Member :=
  (Key._member_map_ Key.cls).*2.

Lemma getattr_bound (n : string) (key : Key.Member) :
  Key.getattr n = Some key -> key ∈ bound_members.
Proof.
  unfold Key.getattr, bound_members.
  destruct (List.find _ _) as [[n' m]|] eqn:Hfind; [|discriminate].
  intros [= <-]. apply List.find_some in Hfind as [Hin _].
  apply list_elem_of_In in Hin.
  apply (list_elem_of_fmap_2 snd) in Hin. exact Hin.
Qed.

(** A dictionary comprehension only holds what the iteration yielded, under
    the key computed from it. *)
Lemma comprehension_sound {K A : Type} `{Countable K} (f : A -> K)
    (l : list A) (d0 : gmap K A) (k : K) (a : A) :
  foldl (fun d x => <[f x := x]> d) d0 l !! k = Some a ->
  (a ∈ l /\ f a = k) \/ d0 !! k = Some a.
Proof.
  revert d0. induction l as [|x l IH]; simpl; intros d0 Hk.
  - by right.
  - destruct (IH _ Hk) as [[Hin Hf]|Hd].
    + left. split; [by apply list_elem_of_further | done].
    + destruct (decide (f x = k)) as [Heq|Hne].
      * rewrite <- Heq, lookup_insert_eq in Hd.
        injection Hd as ->. left. split; [apply list_elem_of_here | done].
      * rewrite lookup_insert_ne in Hd by done. by right.
Qed.

Lemma _SPECIAL_KEYS_sound (k : option Z * option bool) (key : Key.Member) :
  Listener._SPECIAL_KEYS !! k = Some key ->
  key ∈ Key.members /\ k = (vk (Key.value key), _is_media (Key.value key)).
Proof.
  intros Hk. apply comprehension_sound in Hk as [[Hin Hf]|Hempty].
  - by split.
  - by rewrite lookup_empty in Hempty.
Qed.

(** What holds of every member, checked over the whole class: it has a
    virtual key, the decode table maps its pair back to it, and it is
    either an ordinary key or a media key with a 16 bit code. *)
Definition member_ok (key : Key.Member) : bool :=
  match vk (Key.value key) with
  | Some v =>
      bool_decide
        (Listener._SPECIAL_KEYS !! (Some v, _is_media (Key.value key))
         = Some key)
      && match _is_media (Key.value key) with
         | None => truthy v
         | Some media => media && (0 <=? v) && (v <? 2 ^ 16)
         end
  | None => false
  end.

Lemma bound_members_ok : forallb member_ok bound_members = true.
Proof. vm_compute. reflexivity. Qed.

Lemma member_ok_getattr (n : string) (key : Key.Member) :
  Key.getattr n = Some key -> member_ok key = true.
Proof.
  intros Hn%getattr_bound%list_elem_of_In.
  pose proof bound_members_ok as Hall.
  rewrite forallb_forall in Hall. by apply Hall.
Qed.

Lemma member_ok_spec (key : Key.Member) :
  member_ok key = true ->
  exists v,
    vk (Key.value key) = Some v /\
    Listener._SPECIAL_KEYS !! (Some v, _is_media (Key.value key)) = Some key /\
    ((_is_media (Key.value key) = None /\ truthy v = true) \/
     (_is_media (Key.value key) = Some true /\ 0 <= v < 2 ^ 16)).
Proof.
  unfold member_ok. destruct (vk (Key.value key)) as [v|]; [|discriminate].
  intros [Htable Hkind]%andb_true_iff. exists v.
  apply bool_decide_eq_true in Htable. split; [reflexivity|]. split; [exact Htable|].
  destruct (_is_media (Key.value key)) as [[|]|].
  - right. apply andb_true_iff in Hkind as [Hlo%Z.leb_le Hhi%Z.ltb_lt]. 
    split; [reflexivity | lia].
  - discriminate.
  - left. split; [reflexivity | exact Hkind].
Qed.

(** ** Bit fields of [data1] *)

(** The two fields as the specification names them: bits 16..31, which are
    the high 16 bits of a 32 bit word, and bits 8..15 of the low 16 bits. *)
Definition high_16_bits (d : Z) : Z := (d `div` 2 ^ 16) `mod` 2 ^ 16.
Definition low_16_bits (d : Z) : Z := d `mod` 2 ^ 16.
Definition bits_8_15 (s : Z) : Z := (s `div` 2 ^ 8) `mod` 2 ^ 8.

Lemma shiftr_land_field (x : Z) (w : Z) :
  0 <= w ->
  Z.shiftr (Z.land x (Z.shiftl (Z.ones w) w)) w = (x `div` 2 ^ w) `mod` 2 ^ w.
Proof.
  intros Hw.
  rewrite Z.shiftr_land, Z.shiftr_shiftl_l by lia.
  rewrite Z.sub_diag, Z.shiftl_0_r, Z.land_ones by lia.
  by rewrite Z.shiftr_div_pow2 by lia.
Qed.

Lemma data1_scan_code (d : Z) :
  Z.shiftr (Z.land d 0xffff0000) 16 = high_16_bits d.
Proof. apply (shiftr_land_field d 16). lia. Qed.

Lemma data1_press_code (d : Z) :
  Z.shiftr (Z.land (Z.land d 0x0000ffff) 0xff00) 8
  = bits_8_15 (low_16_bits d).
Proof.
  change 0x0000ffff with (Z.ones 16). rewrite Z.land_ones by lia.
  apply (shiftr_land_field (d `mod` 2 ^ 16) 8). lia.
Qed.

(** The word [_event] packs for a media key. *)
Definition media_data1 (v : Z) (is_pressed : bool) : Z :=
  Z.lor (Z.shiftl v 16) (Z.shiftl (if is_pressed then 0xa else 0xb) 8).

Lemma media_data1_high (v : Z) (is_pressed : bool) :
  0 <= v < 2 ^ 16 -> high_16_bits (media_data1 v is_pressed) = v.
Proof.
  intros Hv. unfold high_16_bits, media_data1.
  rewrite <- Z.shiftr_div_pow2, Z.shiftr_lor by lia.
  rewrite Z.shiftr_shiftl_l, Z.sub_diag, Z.shiftl_0_r by lia.
  replace (Z.shiftr (Z.shiftl (if is_pressed then 10 else 11) 8) 16) with 0
    by (by destruct is_pressed).
  rewrite Z.lor_0_r. apply Z.mod_small. lia.
Qed.

Lemma media_data1_low (v : Z) (is_pressed : bool) :
  bits_8_15 (low_16_bits (media_data1 v is_pressed))
  = if is_pressed then 0xa else 0xb.
Proof.
  unfold bits_8_15, low_16_bits, media_data1.
  rewrite <- (Z.land_ones _ 16), Z.land_lor_distr_l by lia.
  rewrite (Z.land_ones (Z.shiftl v 16)), Z.shiftl_mul_pow2 by lia.
  rewrite Z.mod_mul by lia. by destruct is_pressed.
Qed.

(** ** Key resolution *)

(** Nothing in [_event_to_key] raises: the lookups are guarded and the
    Quartz accessors return. *)
Lemma _event_to_key_returns (os : Quartz.OS) (SYMBOLS : gmap Z string)
    (event : Quartz.CGEvent) :
  exists key, Listener._event_to_key os SYMBOLS event = Return key.
Proof.
  unfold Listener._event_to_key.
  destruct (Listener._SPECIAL_KEYS !! _); [by eexists|].
  simpl. destruct (SYMBOLS !! _); repeat case_match; by eexists.
Qed.

(** A member of [Key] is only ever returned from the decode table. *)
Lemma _event_to_key_named (os : Quartz.OS) (SYMBOLS : gmap Z string)
    (event : Quartz.CGEvent) (m : Key.Member) :
  Listener._event_to_key os SYMBOLS event = Return (Named m) ->
  Listener._SPECIAL_KEYS
    !! (Some (Quartz.keycode event),
        if bool_decide (Quartz.type event = Quartz.NSSystemDefined)
        then Some true else None) = Some m.
Proof.
  unfold Listener._event_to_key.
  unfold Quartz.CGEventGetKeycode, Quartz.CGEventGetType.
  destruct (Listener._SPECIAL_KEYS !! _) as [special|]; [by intros [= ->]|].
  simpl. destruct (SYMBOLS !! _); repeat case_match; discriminate.
Qed.

(** And what the decode table lists is returned. *)
Lemma _event_to_key_special (os : Quartz.OS) (SYMBOLS : gmap Z string)
    (event : Quartz.CGEvent) (m : Key.Member) :
  Listener._SPECIAL_KEYS
    !! (Some (Quartz.keycode event),
        if bool_decide (Quartz.type event = Quartz.NSSystemDefined)
        then Some true else None) = Some m ->
  Listener._event_to_key os SYMBOLS event = Return (Named m).
Proof.
  intros Hm. unfold Listener._event_to_key.
  unfold Quartz.CGEventGetKeycode, Quartz.CGEventGetType. by rewrite Hm.
Qed.

(** A system-defined event is never resolved to [Key.caps_lock], which is
    not a media key. *)
Lemma _event_to_key_system_defined (os : Quartz.OS) (SYMBOLS : gmap Z string)
    (event : Quartz.CGEvent) :
  Quartz.type event = Quartz.NSSystemDefined ->
  Listener._event_to_key os SYMBOLS event <> Return (Named Key.caps_lock).
Proof.
  intros Htype Hkey. apply _event_to_key_named in Hkey.
  rewrite bool_decide_eq_true_2 in Hkey by done.
  apply _SPECIAL_KEYS_sound in Hkey as [_ Hpair]. discriminate.
Qed.

(** The decoding of a media-key event: the branch of [_handle] for
    system-defined events, once the earlier branches are passed. *)
Definition media_callbacks (d : Z) : list Callback :=
  match Listener._SPECIAL_KEYS !! (Some (high_16_bits d), Some true) with
  | Some special =>
      if bool_decide (bits_8_15 (low_16_bits d) = 0x0a)
      then [on_press (Some (Named special))]
      else [on_release (Some (Named special))]
  | None => []
  end.

Lemma _handle_callbacks_media (key : option KeyVal) (event : Quartz.CGEvent) :
  key <> Some (Named Key.caps_lock) ->
  Quartz.subtype event = kSystemDefinedEventMediaKeysSubtype ->
  Listener._handle_callbacks key Quartz.NSSystemDefined event
  = media_callbacks (Quartz.data1 event).
Proof.
  intros Hcaps Hsub. unfold Listener._handle_callbacks, media_callbacks.
  rewrite (bool_decide_eq_false_2 (_ = Quartz.kCGEventKeyDown)) by discriminate.
  rewrite (bool_decide_eq_false_2 (_ = Quartz.kCGEventKeyUp)) by discriminate.
  rewrite (bool_decide_eq_false_2 (key = _)) by done.
  rewrite (bool_decide_eq_true_2 (_ = Quartz.NSSystemDefined)) by done.
  rewrite (bool_decide_eq_true_2 _ Hsub).
  by rewrite data1_scan_code, data1_press_code.
Qed.

Lemma _handle_system_defined (os : Quartz.OS) (SYMBOLS : gmap Z string)
    (self : Listener.t) (event : Quartz.CGEvent) :
  Quartz.type event = Quartz.NSSystemDefined ->
  Quartz.subtype event = kSystemDefinedEventMediaKeysSubtype ->
  Listener._handle os SYMBOLS self Quartz.NSSystemDefined event
  = Return (media_callbacks (Quartz.data1 event),
            {| Listener._flags := Quartz.flags event |}).
Proof.
  intros Htype Hsub. unfold Listener._handle.
  pose proof (_event_to_key_system_defined os SYMBOLS event Htype) as Hcaps.
  destruct (_event_to_key_returns os SYMBOLS event) as [key Hkey].
  rewrite Hkey in *. rewrite _handle_callbacks_media; [done| |done].
  intros [= ->]. by apply Hcaps.
Qed.

(** ** What the synthesizer makes *)

(** The event [_event] makes for an ordinary key that has a virtual key
    other than 0. *)
Lemma _event_ordinary (os : Quartz.OS) (self : KeyCode)
    (modifiers : gset Key.Member) (mapping : gmap string Z)
    (is_pressed : bool) (v : Z) :
  vk self = Some v -> truthy v = true -> _is_media self <> Some true ->
  _event os self modifiers mapping is_pressed
  = Return (Quartz.CGEventSetFlags
              (Quartz.CGEventCreateKeyboardEvent v is_pressed)
              (modifier_flags modifiers)).
Proof.
  intros Hvk Hv Hmedia. unfold _event, resolve_vk.
  rewrite Hvk, Hv, bool_decide_eq_false_2 by done. done.
Qed.

(** The event [_event] makes for a media key. *)
Lemma _event_media (os : Quartz.OS) (self : KeyCode)
    (modifiers : gset Key.Member) (mapping : gmap string Z)
    (is_pressed : bool) (v : Z) :
  vk self = Some v -> _is_media self = Some true ->
  exists event,
    _event os self modifiers mapping is_pressed = Return event /\
    Quartz.type event = Quartz.NSSystemDefined /\
    Quartz.subtype event = kSystemDefinedEventMediaKeysSubtype /\
    Quartz.data1 event = media_data1 v is_pressed /\
    Quartz.data2 event = -1 /\
    Quartz.flags event = modifier_flags modifiers /\
    Quartz.location event = (0, 0) /\
    Quartz.timestamp event = 0 /\
    Quartz.windowNumber event = 0 /\
    Quartz.context event = 0.
Proof.
  intros Hvk Hmedia. unfold _event.
  rewrite Hvk, bool_decide_eq_true_2 by done.
  destruct (resolve_vk self mapping), (char self); eexists; (split; [reflexivity|]);
    repeat split.
Qed.

(** ** The properties claimed *)

(** A layout that yields no string, for the examples. *)
Definition silent_os : Quartz.OS :=
  {| Quartz.layout_string := fun _ _ => ""%string;
     Quartz.other_keycode := fun _ _ => 0 |}.

Lemma modifier_flags_empty : modifier_flags ∅ = 0.
Proof. reflexivity. Qed.

(** C1.  For every name of the [Key] enumeration, ordinary or media key:
    the press event the controller synthesizes for the key, with no
    modifier held, is interpreted by the listener as one press of that same
    key. *)
Theorem round_trip (os : Quartz.OS) (SYMBOLS : gmap Z string)
    (self : Listener.t) (mapping : gmap string Z)
    (n : string) (key : Key.Member) :
  Key.getattr n = Some key ->
  exists event,
    Controller._handle os ∅ mapping (Named key) true = Return event /\
    Listener._handle os SYMBOLS self (Quartz.CGEventGetType event) event
    = Return ([on_press (Some (Named key))], {| Listener._flags := 0 |}).
Proof.
  intros Hok%member_ok_getattr%member_ok_spec.
  destruct Hok as (v & Hvk & Htable & [[Hmedia Hv]|[Hmedia Hv]]).
  - (* an ordinary key *)
    eexists. split.
    { unfold Controller._handle. apply (_event_ordinary _ _ _ _ _ v); [done..|].
      by rewrite Hmedia. }
    rewrite modifier_flags_empty. unfold Listener._handle.
    rewrite (_event_to_key_special _ _ _ key).
    + reflexivity.
    + rewrite <- Hmedia. exact Htable.
  - (* a media key *)
    destruct (_event_media os (Key.value key) ∅ mapping true v Hvk Hmedia)
      as (event & Hevent & Htype & Hsub & Hdata & _ & Hflags & _).
    exists event. split; [exact Hevent|].
    unfold Quartz.CGEventGetType. rewrite Htype.
    rewrite _handle_system_defined by done.
    rewrite Hflags, modifier_flags_empty, Hdata. unfold media_callbacks.
    rewrite media_data1_high, media_data1_low by done.
    rewrite <- Hmedia, Htable. reflexivity.
Qed.

Lemma round_trip_witness :
  Key.getattr "alt_l" = Some Key.alt /\
  exists event,
    Controller._handle silent_os ∅ ∅ (Named Key.alt) true = Return event /\
    Listener._handle silent_os ∅ Listener.__init__
      (Quartz.CGEventGetType event) event
    = Return ([on_press (Some (Named Key.alt))], {| Listener._flags := 0 |}).
Proof.
  split; [reflexivity|].
  apply (round_trip silent_os ∅ Listener.__init__ ∅ "alt_l" Key.alt).
  reflexivity.
Defined.

(** *** Names that share a pair *)

(** The pair the decode table files a key code under. *)
Definition pair_of (k : KeyCode) : option Z * option bool :=
  (vk k, _is_media k).

(** The assignments of the class body whose value has pair [p], in the
    order of the source. *)
Abbreviation assignments_of p :=
  (List.filter (fun a : string * KeyCode => bool_decide (pair_of a.2 = p))
               Key.body) (only parsing).

(** The members the iteration over [Key] yields for pair [p]. *)
Abbreviation members_of p :=
  (List.filter (fun m : Key.Member => bool_decide (pair_of (Key.value m) = p))
               Key.members) (only parsing).

(** The check made for every assignment of the class body: of the
    assignments with its pair, the first names the member that is the
    table's entry, the only member yielded, and what every one of these
    names is bound to. *)
Definition first_declared_in (assignments : list (string * KeyCode))
    (entry : option Key.Member) (yielded : list Key.Member) : bool :=
  match assignments with
  | (n1, v1) :: rest =>
      let m := {| Key.name := n1; Key.value := v1 |} in
      bool_decide (entry = Some m)
      && bool_decide (yielded = [m])
      && forallb (fun b => bool_decide (Key.getattr b.1 = Some m))
                 ((n1, v1) :: rest)
  | [] => true
  end.

Lemma body_first_declared :
  forallb (fun a => first_declared_in
                      (assignments_of (pair_of a.2))
                      (Listener._SPECIAL_KEYS !! pair_of a.2)
                      (members_of (pair_of a.2)))
          Key.body = true.
Proof. vm_compute. reflexivity. Qed.

Lemma first_declared_in_spec (assignments : list (string * KeyCode))
    (entry : option Key.Member) (yielded : list Key.Member)
    (n1 : string) (v1 : KeyCode) (rest : list (string * KeyCode)) :
  first_declared_in assignments entry yielded = true ->
  assignments = (n1, v1) :: rest ->
  let m := {| Key.name := n1; Key.value := v1 |} in
  entry = Some m /\ yielded = [m] /\
  Forall (fun b => Key.getattr b.1 = Some m) ((n1, v1) :: rest).
Proof.
  intros Hok -> m. unfold first_declared_in in Hok.
  apply andb_true_iff in Hok as [Hok Hnames].
  apply andb_true_iff in Hok as [Htable Hmembers].
  apply bool_decide_eq_true in Htable, Hmembers.
  repeat split; [done..|].
  apply Forall_forall. intros b Hb%list_elem_of_In.
  rewrite forallb_forall in Hnames.
  specialize (Hnames b Hb). by apply bool_decide_eq_true in Hnames.
Qed.

(** When assignments of the class body share a pair, the first of them
    creates the one member of that pair and all of them are names of that
    member; the iteration over [Key] yields it once, and the decode table
    maps the pair to it. *)
Lemma first_declared (p : option Z * option bool) (n1 : string)
    (v1 : KeyCode) (rest : list (string * KeyCode)) :
  assignments_of p = (n1, v1) :: rest ->
  let m := {| Key.name := n1; Key.value := v1 |} in
  Listener._SPECIAL_KEYS !! p = Some m /\
  members_of p = [m] /\
  Forall (fun b => Key.getattr b.1 = Some m) ((n1, v1) :: rest).
Proof.
  intros Hassign.
  apply (first_declared_in_spec (assignments_of p)); [|exact Hassign].
  assert (In (n1, v1) (assignments_of p)) as Hin
    by (rewrite Hassign; apply in_eq).
  apply List.filter_In in Hin as [Hbody Hpair].
  apply bool_decide_eq_true in Hpair. subst p.
  pose proof body_first_declared as Hall.
  rewrite forallb_forall in Hall. exact (Hall _ Hbody).
Qed.

Lemma last_nonempty {A : Type} (l : list A) (a : A) :
  last l = Some a -> a ∈ l /\ exists x rest, l = x :: rest.
Proof.
  intros Hlast. split.
  - by apply last_Some_elem_of.
  - destruct l as [|x rest]; [discriminate Hlast|by eexists _, _].
Qed.

(** What a filter that keeps one element says of the list. *)
Lemma filter_singleton {A : Type} (f : A -> bool) (l : list A) (m : A) :
  List.filter f l = [m] ->
  m ∈ l /\ f m = true /\ forall x, x ∈ l -> f x = true -> x = m.
Proof.
  intros Hfilter.
  assert (forall x, In x (List.filter f l) <-> In x l /\ f x = true) as Hin
    by (intros x; apply List.filter_In).
  rewrite Hfilter in Hin. split; [|split].
  - apply list_elem_of_In. apply Hin. apply in_eq.
  - apply Hin. apply in_eq.
  - intros x Hx%list_elem_of_In Hfx.
    destruct (proj2 (Hin x) (conj Hx Hfx)) as [<-|[]]. reflexivity.
Qed.

(** The entry a dictionary comprehension holds under a key that one element
    only is filed under does not depend on where the iteration meets this
    element. *)
Lemma comprehension_unique {K A : Type} `{Countable K} `{EqDecision A}
    (f : A -> K) (l : list A) (d0 : gmap K A) (k : K) (m : A) :
  f m = k ->
  (forall x, x ∈ l -> f x = k -> x = m) ->
  foldl (fun d x => <[f x := x]> d) d0 l !! k
  = if decide (m ∈ l) then Some m else d0 !! k.
Proof.
  intros Hm. revert d0. induction l as [|x l IH]; intros d0 Hunique.
  - rewrite decide_False by apply not_elem_of_nil. reflexivity.
  - cbn [foldl]. rewrite IH
      by (intros y Hy; apply Hunique; by apply list_elem_of_further).
    destruct (decide (m ∈ l)) as [Hin|Hnotin].
    + rewrite decide_True by (by apply list_elem_of_further). reflexivity.
    + destruct (decide (f x = k)) as [Hx|Hx].
      * rewrite (Hunique x (list_elem_of_here _ _) Hx).
        rewrite Hm, lookup_insert_eq.
        rewrite decide_True by apply list_elem_of_here. reflexivity.
      * rewrite lookup_insert_ne by exact Hx.
        rewrite decide_False; [reflexivity|].
        intros [->|Hin]%elem_of_cons; [by rewrite Hm in Hx|done].
Qed.

(** The comprehension of [_SPECIAL_KEYS] over the members met in a given
    order; the table is the one over the members in the order of the
    class. *)
Definition _SPECIAL_KEYS_over (members : list Key.Member)
    : gmap (option Z * option bool) Key.Member :=
  foldl (fun d key => <[(vk (Key.value key), _is_media (Key.value key)) := key]> d)
        ∅ members.

Lemma _SPECIAL_KEYS_over_members :
  Listener._SPECIAL_KEYS = _SPECIAL_KEYS_over Key.members.
Proof. reflexivity. Qed.

(** The example of C2: the pair (0x3A, absent) decodes to [Key.alt_l]. *)
Lemma _SPECIAL_KEYS_alt_l :
  Listener._SPECIAL_KEYS !! (Some 0x3A, None) = Some Key.alt_l.
Proof. vm_compute. reflexivity. Qed.

(** C2.  For every pair that assignments of the class body share, the
    decode table maps the pair to the key declared last: the member that the
    last of these names is bound to.  [enum.Enum] binds a name whose value
    equals an earlier member's to that member, so the names of a shared pair
    are names of one member ([Key.alt_l] is [Key.alt]).  The iteration over
    [Key] yields this member once for the pair, so no entry is replaced, and
    the entry is the same in whatever order the members are met: every build
    of the table gives it. *)
Theorem last_declared (p : option Z * option bool) (a : string * KeyCode) :
  (2 <= length (assignments_of p))%nat ->
  last (assignments_of p) = Some a ->
  exists key,
    Key.getattr a.1 = Some key /\
    Listener._SPECIAL_KEYS !! p = Some key /\
    members_of p = [key] /\
    forall members, members ≡ₚ Key.members ->
      _SPECIAL_KEYS_over members !! p = Some key.
Proof.
  intros _ Hlast.
  apply last_nonempty in Hlast as (Hin & [n1 v1] & rest & Hassign).
  destruct (first_declared p n1 v1 rest Hassign)
    as (Htable & Hmembers & Hnames).
  exists {| Key.name := n1; Key.value := v1 |}.
  split; [|split; [exact Htable|split; [exact Hmembers|]]].
  - rewrite Hassign in Hin. rewrite Forall_forall in Hnames.
    exact (Hnames a Hin).
  - clear Htable Hnames Hin Hassign.
    intros members Hperm.
    destruct (filter_singleton _ _ _ Hmembers) as (Hm & Hpair & Hunique).
    apply bool_decide_eq_true in Hpair.
    unfold _SPECIAL_KEYS_over.
    rewrite (comprehension_unique
               (fun key => (vk (Key.value key), _is_media (Key.value key)))
               members ∅ p {| Key.name := n1; Key.value := v1 |} Hpair).
    + rewrite decide_True; [reflexivity|].
      apply (elem_of_Permutation_proper _ _ _ Hperm). exact Hm.
    + intros x Hx Hxp.
      apply (elem_of_Permutation_proper _ _ _ Hperm) in Hx.
      apply Hunique; [exact Hx|].
      apply bool_decide_eq_true. exact Hxp.
Qed.

Lemma last_declared_witness :
  (2 <= length (assignments_of (Some 0x3A%Z, None)))%nat /\
  last (assignments_of (Some 0x3A, None)) = Some ("alt_l"%string, Key.vk_ 0x3A) /\
  exists key,
    Key.getattr "alt_l" = Some key /\
    Listener._SPECIAL_KEYS !! (Some 0x3A, None) = Some key /\
    members_of (Some 0x3A, None) = [key] /\
    forall members, members ≡ₚ Key.members ->
      _SPECIAL_KEYS_over members !! (Some 0x3A, None) = Some key.
Proof.
  split; [vm_compute; lia|]. split; [vm_compute; reflexivity|].
  apply (last_declared (Some 0x3A, None) ("alt_l"%string, Key.vk_ 0x3A)).
  - vm_compute; lia.
  - vm_compute; reflexivity.
Defined.

(** *** Keys the decode table does not list *)

Lemma length_positive (chars : string) :
  (0 <? Z.of_nat (String.length chars)) = negb (bool_decide (chars = ""%string)).
Proof. by destruct chars. Qed.

(** The symbol table decides when the string is not printable, the key code
    is in the table and Control is held. *)
Lemma _event_to_key_symbol (os : Quartz.OS) (SYMBOLS : gmap Z string)
    (event : Quartz.CGEvent) (symbol : string) :
  Listener._SPECIAL_KEYS
    !! (Some (Quartz.keycode event),
        if bool_decide (Quartz.type event = Quartz.NSSystemDefined)
        then Some true else None) = None ->
  isprintable (Quartz.CGEventKeyboardGetUnicodeString os event).2 = false ->
  SYMBOLS !! Quartz.keycode event = Some symbol ->
  Z.land (Quartz.flags event) Quartz.kCGEventFlagMaskControl <> 0 ->
  Listener._event_to_key os SYMBOLS event
  = Return (Generic (from_char symbol (Some (Quartz.keycode event)))).
Proof.
  intros Htable Hprint Hsym Hctrl. unfold Listener._event_to_key.
  unfold Quartz.CGEventGetKeycode, Quartz.CGEventGetType,
    Quartz.CGEventGetFlags.
  rewrite Htable.
  destruct (Quartz.CGEventKeyboardGetUnicodeString os event)
    as [length chars] eqn:Hget.
  simpl in Hprint. rewrite Hsym, Hprint. unfold truthy.
  by rewrite (proj2 (Z.eqb_neq _ _) Hctrl).
Qed.

(** Otherwise the string the operating system gives decides: a character
    key code when it is not empty, a bare key code when it is. *)
Lemma _event_to_key_chars (os : Quartz.OS) (SYMBOLS : gmap Z string)
    (event : Quartz.CGEvent) :
  Listener._SPECIAL_KEYS
    !! (Some (Quartz.keycode event),
        if bool_decide (Quartz.type event = Quartz.NSSystemDefined)
        then Some true else None) = None ->
  isprintable (Quartz.CGEventKeyboardGetUnicodeString os event).2 = true
  \/ SYMBOLS !! Quartz.keycode event = None
  \/ Z.land (Quartz.flags event) Quartz.kCGEventFlagMaskControl = 0 ->
  Listener._event_to_key os SYMBOLS event
  = Return (Generic
      (let chars := (Quartz.CGEventKeyboardGetUnicodeString os event).2 in
       if bool_decide (chars = ""%string)
       then from_vk (Quartz.keycode event) None None
       else from_char chars (Some (Quartz.keycode event)))).
Proof.
  intros Htable Hother. unfold Listener._event_to_key.
  unfold Quartz.CGEventGetKeycode, Quartz.CGEventGetType,
    Quartz.CGEventGetFlags.
  rewrite Htable. unfold Quartz.CGEventKeyboardGetUnicodeString in *.
  cbv zeta in *. rewrite length_positive. cbn [snd] in *.
  set (chars := match Quartz.unicode_string event with
                | Some s => s | None => _ end).
  assert ((match SYMBOLS !! Quartz.keycode event with
           | Some symbol =>
               if negb (isprintable chars)
                  && truthy (Z.land (Quartz.flags event)
                                    Quartz.kCGEventFlagMaskControl)
               then Some symbol else None
           | None => None
           end) = None) as Hnone.
  { destruct (SYMBOLS !! _) as [symbol|]; [|done].
    destruct Hother as [Hp|[Hs|Hc]]; [|done|].
    - fold chars in Hp. by rewrite Hp.
    - rewrite Hc. by rewrite andb_false_r. }
  destruct (SYMBOLS !! _) as [symbol|];
    [destruct (negb _ && truthy _); [discriminate|] |];
    by destruct (bool_decide (chars = ""%string)).
Qed.

Lemma _SPECIAL_KEYS_9999 :
  Listener._SPECIAL_KEYS !! (Some 9999, None) = None.
Proof. vm_compute. reflexivity. Qed.

Lemma _SPECIAL_KEYS_0 : Listener._SPECIAL_KEYS !! (Some 0, None) = None.
Proof. vm_compute. reflexivity. Qed.

Lemma _SPECIAL_KEYS_caps_lock :
  Listener._SPECIAL_KEYS !! (Some 0x39, None) = Some Key.caps_lock.
Proof. vm_compute. reflexivity. Qed.

Lemma _SPECIAL_KEYS_play :
  Listener._SPECIAL_KEYS !! (Some 0x10, Some true) = Some Key.media_play_pause.
Proof. vm_compute. reflexivity. Qed.

(** C3, evaluated.  A direct key event with scan code 9999 is not reported
    as [None]: for every layout and symbol table the callback receives a
    key code that carries the scan code 9999, the bare key code
    [from_vk 9999] when the layout yields no string.  Nothing is raised. *)
Theorem scan_code_9999 (os : Quartz.OS) (SYMBOLS : gmap Z string)
    (self : Listener.t) (is_pressed : bool) :
  exists key : KeyCode,
    Listener._handle os SYMBOLS self
      (Quartz.CGEventGetType (Quartz.CGEventCreateKeyboardEvent 9999 is_pressed))
      (Quartz.CGEventCreateKeyboardEvent 9999 is_pressed)
    = Return ([(if is_pressed then on_press else on_release)
                 (Some (Generic key))],
              {| Listener._flags := 0 |}) /\
    vk key = Some 9999 /\
    (Quartz.layout_string os 9999 0 = ""%string ->
     key = from_vk 9999 None None).
Proof.
  set (event := Quartz.CGEventCreateKeyboardEvent 9999 is_pressed).
  assert (Listener._SPECIAL_KEYS
            !! (Some (Quartz.keycode event),
                if bool_decide (Quartz.type event = Quartz.NSSystemDefined)
                then Some true else None) = None) as Htable.
  { replace (bool_decide (Quartz.type event = Quartz.NSSystemDefined))
      with false by (by destruct is_pressed).
    apply _SPECIAL_KEYS_9999. }
  pose proof (_event_to_key_chars os SYMBOLS event Htable) as Hkey.
  eexists. split; [|split].
  - unfold Listener._handle. rewrite Hkey by (right; right; reflexivity).
    destruct is_pressed; reflexivity.
  - cbv zeta. destruct (bool_decide (_ = ""%string)); reflexivity.
  - intros Hlayout. unfold Quartz.CGEventKeyboardGetUnicodeString.
    cbn. rewrite Hlayout. reflexivity.
Qed.

(** *** Strings that are not printable *)

(** A line feed, which [str.isprintable] rejects. *)
Definition line_feed : string :=
  String (Ascii.ascii_of_nat 10) EmptyString.

(** The key-down event the synthesizer makes for the character key code of
    a line feed under a layout mapping that lacks it: key code 0 and the
    character as payload. *)
Definition line_feed_event : Quartz.CGEvent :=
  Quartz.CGEventKeyboardSetUnicodeString
    (Quartz.CGEventSetFlags (Quartz.CGEventCreateKeyboardEvent 0 true) 0)
    1 line_feed.

Lemma line_feed_event_synthesized :
  _event silent_os (from_char line_feed None) ∅ ∅ true
  = Return line_feed_event.
Proof. reflexivity. Qed.

(** C9, as stated, fails.  The line feed event is in no table and holds a
    string that is not printable, and still a character key code is built
    from that string. *)
Lemma unprintable_counterexample :
  Listener._SPECIAL_KEYS !! (Some 0, None) = None /\
  (Quartz.CGEventKeyboardGetUnicodeString silent_os line_feed_event).2
  = line_feed /\
  isprintable line_feed = false /\
  Listener._event_to_key silent_os ∅ line_feed_event
  = Return (Generic (from_char line_feed (Some 0))).
Proof.
  split; [apply _SPECIAL_KEYS_0|]. split; [reflexivity|].
  split; [reflexivity|].
  rewrite _event_to_key_chars; [reflexivity|apply _SPECIAL_KEYS_0|].
  right. left. apply lookup_empty.
Qed.

(** C9, amended.  After the lookup in the decode table fails: when the
    string the operating system computed is not printable, the scan code is
    in the symbol table and Control is held, the key is the character key
    code of the table's symbol; otherwise a character key code is built from
    the string whenever it is not empty, printable or not; otherwise the key
    is the bare scan code. *)
Theorem key_resolution (os : Quartz.OS) (SYMBOLS : gmap Z string)
    (event : Quartz.CGEvent) :
  Listener._SPECIAL_KEYS
    !! (Some (Quartz.keycode event),
        if bool_decide (Quartz.type event = Quartz.NSSystemDefined)
        then Some true else None) = None ->
  let scan_code := Quartz.keycode event in
  let chars := (Quartz.CGEventKeyboardGetUnicodeString os event).2 in
  let by_symbol :=
    isprintable chars = false /\ is_Some (SYMBOLS !! scan_code) /\
    Z.land (Quartz.flags event) Quartz.kCGEventFlagMaskControl <> 0 in
  (forall symbol, by_symbol -> SYMBOLS !! scan_code = Some symbol ->
     Listener._event_to_key os SYMBOLS event
     = Return (Generic (from_char symbol (Some scan_code)))) /\
  (~ by_symbol -> chars <> ""%string ->
     Listener._event_to_key os SYMBOLS event
     = Return (Generic (from_char chars (Some scan_code)))) /\
  (~ by_symbol -> chars = ""%string ->
     Listener._event_to_key os SYMBOLS event
     = Return (Generic (from_vk scan_code None None))).
Proof.
  intros Htable scan_code chars by_symbol.
  assert (~ by_symbol ->
          isprintable chars = true \/ SYMBOLS !! scan_code = None
          \/ Z.land (Quartz.flags event) Quartz.kCGEventFlagMaskControl = 0)
    as Hother.
  { unfold by_symbol. intros Hnot.
    destruct (isprintable chars); [by left|].
    destruct (SYMBOLS !! scan_code) as [symbol|]; [|by right; left].
    destruct (decide (Z.land (Quartz.flags event)
                         Quartz.kCGEventFlagMaskControl = 0));
      [by right; right|].
    exfalso. apply Hnot. eauto. }
  split; [|split].
  - intros symbol (Hprint & _ & Hctrl) Hsym.
    by apply _event_to_key_symbol.
  - intros Hnot%Hother Hchars.
    rewrite _event_to_key_chars by done.
    cbv zeta. fold chars. by rewrite bool_decide_eq_false_2.
  - intros Hnot%Hother Hchars.
    rewrite _event_to_key_chars by done.
    cbv zeta. fold chars. by rewrite bool_decide_eq_true_2.
Qed.

Lemma key_resolution_witness :
  Listener._SPECIAL_KEYS !! (Some 0, None) = None /\
  let by_symbol :=
    isprintable line_feed = false /\ is_Some ((∅ : gmap Z string) !! 0) /\
    Z.land 0 Quartz.kCGEventFlagMaskControl <> 0 in
  (forall symbol, by_symbol -> (∅ : gmap Z string) !! 0 = Some symbol ->
     Listener._event_to_key silent_os ∅ line_feed_event
     = Return (Generic (from_char symbol (Some 0)))) /\
  (~ by_symbol -> line_feed <> ""%string ->
     Listener._event_to_key silent_os ∅ line_feed_event
     = Return (Generic (from_char line_feed (Some 0)))) /\
  (~ by_symbol -> line_feed = ""%string ->
     Listener._event_to_key silent_os ∅ line_feed_event
     = Return (Generic (from_vk 0 None None))).
Proof.
  split; [apply _SPECIAL_KEYS_0|].
  apply (key_resolution silent_os ∅ line_feed_event).
  apply _SPECIAL_KEYS_0.
Defined.

(** *** Events that are neither key-down nor key-up *)

(** A flags-changed event for the caps lock key, as the operating system
    delivers it when the key is toggled on. *)
Definition caps_lock_event : Quartz.CGEvent :=
  {| Quartz.type := Quartz.kCGEventFlagsChanged;
     Quartz.keycode := 0x39;
     Quartz.flags := 0x00010000;
     Quartz.unicode_string := None;
     Quartz.location := (0, 0); Quartz.timestamp := 0;
     Quartz.windowNumber := 0; Quartz.context := 0;
     Quartz.subtype := 0; Quartz.data1 := 0; Quartz.data2 := 0 |}.

(** C6.  An event that is neither key-down nor key-up and is resolved to
    [Key.caps_lock] makes exactly two callbacks: the press of caps lock,
    then its release. *)
Theorem caps_lock_toggle (os : Quartz.OS) (SYMBOLS : gmap Z string)
    (self : Listener.t) (event_type : Z) (event : Quartz.CGEvent) :
  event_type <> Quartz.kCGEventKeyDown ->
  event_type <> Quartz.kCGEventKeyUp ->
  Listener._event_to_key os SYMBOLS event = Return (Named Key.caps_lock) ->
  Listener._handle os SYMBOLS self event_type event
  = Return ([on_press (Some (Named Key.caps_lock));
             on_release (Some (Named Key.caps_lock))],
            {| Listener._flags := Quartz.flags event |}).
Proof.
  intros Hdown Hup Hkey. unfold Listener._handle. rewrite Hkey.
  unfold Listener._handle_callbacks.
  rewrite (bool_decide_eq_false_2 _ Hdown), (bool_decide_eq_false_2 _ Hup).
  by rewrite bool_decide_eq_true_2.
Qed.

Lemma caps_lock_toggle_witness :
  Quartz.kCGEventFlagsChanged <> Quartz.kCGEventKeyDown /\
  Quartz.kCGEventFlagsChanged <> Quartz.kCGEventKeyUp /\
  Listener._event_to_key silent_os ∅ caps_lock_event
  = Return (Named Key.caps_lock) /\
  Listener._handle silent_os ∅ Listener.__init__
    Quartz.kCGEventFlagsChanged caps_lock_event
  = Return ([on_press (Some (Named Key.caps_lock));
             on_release (Some (Named Key.caps_lock))],
            {| Listener._flags := 0x00010000 |}).
Proof.
  assert (Listener._event_to_key silent_os ∅ caps_lock_event
          = Return (Named Key.caps_lock)) as Hkey
    by (apply _event_to_key_special, _SPECIAL_KEYS_caps_lock).
  split; [discriminate|]. split; [discriminate|]. split; [exact Hkey|].
  apply (caps_lock_toggle silent_os ∅ Listener.__init__
           Quartz.kCGEventFlagsChanged caps_lock_event);
    [discriminate | discriminate | exact Hkey].
Defined.

(** C10.  In the last branch of [_handle], reached by an event that is
    not key-down, not key-up, not resolved to caps lock and not
    system-defined, a key without an entry in [_MODIFIER_FLAGS], [None] and
    plain key codes among them, is reported as released and not as pressed:
    the one callback made is [on_release], and so for [_handle] as a whole
    when the key is the one the event resolves to. *)
Theorem unlisted_key_released (key : option KeyVal) (event_type : Z)
    (event : Quartz.CGEvent) :
  event_type <> Quartz.kCGEventKeyDown ->
  event_type <> Quartz.kCGEventKeyUp ->
  key <> Some (Named Key.caps_lock) ->
  event_type <> Quartz.NSSystemDefined ->
  (forall m, key = Some (Named m) -> Listener._MODIFIER_FLAGS !! m = None) ->
  Listener._handle_callbacks key event_type event = [on_release key] /\
  forall (os : Quartz.OS) (SYMBOLS : gmap Z string) (self : Listener.t)
         (resolved : KeyVal),
    key = Some resolved ->
    Listener._event_to_key os SYMBOLS event = Return resolved ->
    Listener._handle os SYMBOLS self event_type event
    = Return ([on_release key], {| Listener._flags := Quartz.flags event |}).
Proof.
  intros Hdown Hup Hcaps Hsys Hflag.
  assert (Listener._handle_callbacks key event_type event = [on_release key])
    as Hcallbacks.
  { unfold Listener._handle_callbacks.
    rewrite (bool_decide_eq_false_2 _ Hdown), (bool_decide_eq_false_2 _ Hup),
      (bool_decide_eq_false_2 _ Hcaps), (bool_decide_eq_false_2 _ Hsys).
    assert (Listener._MODIFIER_FLAGS_get key = 0) as ->.
    { destruct key as [[m|k]|]; [|done..].
      unfold Listener._MODIFIER_FLAGS_get. by rewrite (Hflag m eq_refl). }
    by rewrite Z.land_0_r. }
  split; [exact Hcallbacks|].
  intros os SYMBOLS self resolved -> Hresolved.
  unfold Listener._handle. by rewrite Hresolved, Hcallbacks.
Qed.

(** A flags-changed event for the fn key, which is no member of [Key]. *)
Definition fn_event : Quartz.CGEvent :=
  {| Quartz.type := Quartz.kCGEventFlagsChanged;
     Quartz.keycode := 0x3F;
     Quartz.flags := 0x00800000;
     Quartz.unicode_string := None;
     Quartz.location := (0, 0); Quartz.timestamp := 0;
     Quartz.windowNumber := 0; Quartz.context := 0;
     Quartz.subtype := 0; Quartz.data1 := 0; Quartz.data2 := 0 |}.

Lemma unlisted_key_released_witness :
  let key := Some (Generic (from_vk 0x3F None None)) in
  Quartz.kCGEventFlagsChanged <> Quartz.kCGEventKeyDown /\
  Quartz.kCGEventFlagsChanged <> Quartz.kCGEventKeyUp /\
  key <> Some (Named Key.caps_lock) /\
  Quartz.kCGEventFlagsChanged <> Quartz.NSSystemDefined /\
  (forall m, key = Some (Named m) -> Listener._MODIFIER_FLAGS !! m = None) /\
  Listener._handle_callbacks key Quartz.kCGEventFlagsChanged fn_event
  = [on_release key].
Proof.
  repeat (split; [discriminate|]).
  apply (unlisted_key_released (Some (Generic (from_vk 0x3F None None)))
           Quartz.kCGEventFlagsChanged fn_event); discriminate.
Defined.

(** *** Media keys *)

(** C7.  For a media key, pressed or released, the synthesizer makes a
    system-defined event of the media-keys subtype whose [data1] is
    [(vk << 16) | (code << 8)], the code being 0x0a for a press and 0x0b for
    a release; location, time stamp, window number and context are 0 and
    [data2] is -1. *)
Theorem media_event (os : Quartz.OS) (self : KeyCode)
    (modifiers : gset Key.Member) (mapping : gmap string Z)
    (is_pressed : bool) (v : Z) :
  _is_media self = Some true -> vk self = Some v ->
  exists event,
    _event os self modifiers mapping is_pressed = Return event /\
    Quartz.type event = Quartz.NSSystemDefined /\
    Quartz.subtype event = kSystemDefinedEventMediaKeysSubtype /\
    Quartz.data1 event
    = Z.lor (Z.shiftl v 16) (Z.shiftl (if is_pressed then 0x0a else 0x0b) 8) /\
    Quartz.location event = (0, 0) /\
    Quartz.windowNumber event = 0 /\
    Quartz.context event = 0 /\
    Quartz.timestamp event = 0 /\
    Quartz.data2 event = -1.
Proof.
  intros Hmedia Hvk.
  destruct (_event_media os self modifiers mapping is_pressed v Hvk Hmedia)
    as (event & Hevent & Htype & Hsub & Hdata1 & Hdata2 & _ & Hloc & Htime
        & Hwin & Hctx).
  exists event. repeat split; done.
Qed.

Lemma media_event_witness :
  _is_media (Key.value Key.media_play_pause) = Some true /\
  vk (Key.value Key.media_play_pause) = Some 16 /\
  exists event,
    _event silent_os (Key.value Key.media_play_pause) ∅ ∅ true
    = Return event /\
    Quartz.type event = Quartz.NSSystemDefined /\
    Quartz.subtype event = kSystemDefinedEventMediaKeysSubtype /\
    Quartz.data1 event = Z.lor (Z.shiftl 16 16) (Z.shiftl 0x0a 8) /\
    Quartz.location event = (0, 0) /\
    Quartz.windowNumber event = 0 /\
    Quartz.context event = 0 /\
    Quartz.timestamp event = 0 /\
    Quartz.data2 event = -1.
Proof.
  split; [reflexivity|]. split; [reflexivity|].
  apply (media_event silent_os (Key.value Key.media_play_pause) ∅ ∅ true 16);
    reflexivity.
Defined.

(** A 32 bit word has [high_16_bits] as its upper half. *)
Lemma high_16_bits_word (d : Z) :
  0 <= d < 2 ^ 32 -> high_16_bits d = d `div` 2 ^ 16.
Proof.
  intros Hd. unfold high_16_bits. apply Z.mod_small. split.
  - apply Z.div_pos; lia.
  - apply Z.div_lt_upper_bound; lia.
Qed.

(** C4.  A system-defined event with the media-keys subtype: the high 16
    bits of [data1] are looked up, as a media key, in the decode table.
    Without an entry no callback is made.  With one, the key is reported as
    pressed when bits 8..15 of the low 16 bits are 0x0a and as released for
    every other value. *)
Theorem media_key_decode (os : Quartz.OS) (SYMBOLS : gmap Z string)
    (self : Listener.t) (event : Quartz.CGEvent) :
  Quartz.type event = Quartz.NSSystemDefined ->
  Quartz.subtype event = kSystemDefinedEventMediaKeysSubtype ->
  let candidate := high_16_bits (Quartz.data1 event) in
  let status := low_16_bits (Quartz.data1 event) in
  exists callbacks,
    Listener._handle os SYMBOLS self (Quartz.CGEventGetType event) event
    = Return (callbacks, {| Listener._flags := Quartz.flags event |}) /\
    match Listener._SPECIAL_KEYS !! (Some candidate, Some true) with
    | None => callbacks = []
    | Some special =>
        (bits_8_15 status = 0x0a ->
         callbacks = [on_press (Some (Named special))]) /\
        (bits_8_15 status <> 0x0a ->
         callbacks = [on_release (Some (Named special))])
    end.
Proof.
  intros Htype Hsub candidate status.
  exists (media_callbacks (Quartz.data1 event)). split.
  - unfold Quartz.CGEventGetType. rewrite Htype.
    by apply _handle_system_defined.
  - unfold media_callbacks. fold candidate status.
    destruct (Listener._SPECIAL_KEYS !! _) as [special|]; [|done].
    split; intros Hcode.
    + by rewrite bool_decide_eq_true_2.
    + by rewrite bool_decide_eq_false_2.
Qed.

(** The event of the specification's example: [data1] is
    [(0x10 << 16) | (code << 8)]. *)
Definition play_event (code : Z) : Quartz.CGEvent :=
  {| Quartz.type := Quartz.NSSystemDefined;
     Quartz.keycode := 0;
     Quartz.flags := 0;
     Quartz.unicode_string := None;
     Quartz.location := (0, 0); Quartz.timestamp := 0;
     Quartz.windowNumber := 0; Quartz.context := 0;
     Quartz.subtype := 8;
     Quartz.data1 := Z.lor (Z.shiftl 0x10 16) (Z.shiftl code 8);
     Quartz.data2 := -1 |}.

Lemma play_event_pressed (os : Quartz.OS) (SYMBOLS : gmap Z string)
    (self : Listener.t) :
  Listener._handle os SYMBOLS self Quartz.NSSystemDefined (play_event 0x0a)
  = Return ([on_press (Some (Named Key.media_play_pause))],
            {| Listener._flags := 0 |}).
Proof.
  rewrite _handle_system_defined by reflexivity.
  unfold media_callbacks.
  change (high_16_bits (Quartz.data1 (play_event 10))) with 0x10.
  by rewrite _SPECIAL_KEYS_play.
Qed.

Lemma play_event_released (os : Quartz.OS) (SYMBOLS : gmap Z string)
    (self : Listener.t) :
  Listener._handle os SYMBOLS self Quartz.NSSystemDefined (play_event 0x0b)
  = Return ([on_release (Some (Named Key.media_play_pause))],
            {| Listener._flags := 0 |}).
Proof.
  rewrite _handle_system_defined by reflexivity.
  unfold media_callbacks.
  change (high_16_bits (Quartz.data1 (play_event 11))) with 0x10.
  by rewrite _SPECIAL_KEYS_play.
Qed.

Lemma media_key_decode_witness :
  Quartz.type (play_event 0x0a) = Quartz.NSSystemDefined /\
  Quartz.subtype (play_event 0x0a) = kSystemDefinedEventMediaKeysSubtype /\
  let candidate := high_16_bits (Quartz.data1 (play_event 0x0a)) in
  let status := low_16_bits (Quartz.data1 (play_event 0x0a)) in
  exists callbacks,
    Listener._handle silent_os ∅ Listener.__init__
      (Quartz.CGEventGetType (play_event 0x0a)) (play_event 0x0a)
    = Return (callbacks,
              {| Listener._flags := Quartz.flags (play_event 0x0a) |}) /\
    match Listener._SPECIAL_KEYS !! (Some candidate, Some true) with
    | None => callbacks = []
    | Some special =>
        (bits_8_15 status = 0x0a ->
         callbacks = [on_press (Some (Named special))]) /\
        (bits_8_15 status <> 0x0a ->
         callbacks = [on_release (Some (Named special))])
    end.
Proof.
  split; [reflexivity|]. split; [reflexivity|].
  apply (media_key_decode silent_os ∅ Listener.__init__ (play_event 0x0a));
    reflexivity.
Defined.

(** *** Modifier flags *)

Definition modifier_masks : Z :=
  Z.lor (Z.lor (Z.lor Quartz.kCGEventFlagMaskAlternate
                      Quartz.kCGEventFlagMaskCommand)
               Quartz.kCGEventFlagMaskControl)
        Quartz.kCGEventFlagMaskShift.

(** [_event] sets the flags last, whatever event it made. *)
Lemma _event_flags (os : Quartz.OS) (self : KeyCode)
    (modifiers : gset Key.Member) (mapping : gmap string Z)
    (is_pressed : bool) (event : Quartz.CGEvent) :
  _event os self modifiers mapping is_pressed = Return event ->
  Quartz.flags event = modifier_flags modifiers.
Proof.
  unfold _event.
  destruct (bool_decide (_is_media self = Some true)), (vk self),
    (resolve_vk self mapping), (char self);
    intros [= <-] || discriminate; reflexivity.
Qed.

Lemma modifier_flags_bits (modifiers : gset Key.Member) :
  let bit (m : Key.Member) (mask : Z) :=
    if bool_decide (m ∈ modifiers) then mask else 0 in
  Z.land (modifier_flags modifiers) Quartz.kCGEventFlagMaskAlternate
  = bit Key.alt Quartz.kCGEventFlagMaskAlternate /\
  Z.land (modifier_flags modifiers) Quartz.kCGEventFlagMaskCommand
  = bit Key.cmd Quartz.kCGEventFlagMaskCommand /\
  Z.land (modifier_flags modifiers) Quartz.kCGEventFlagMaskControl
  = bit Key.ctrl Quartz.kCGEventFlagMaskControl /\
  Z.land (modifier_flags modifiers) Quartz.kCGEventFlagMaskShift
  = bit Key.shift Quartz.kCGEventFlagMaskShift /\
  Z.land (modifier_flags modifiers) (Z.lnot modifier_masks) = 0.
Proof.
  unfold modifier_flags.
  destruct (bool_decide (Key.alt ∈ modifiers)),
    (bool_decide (Key.cmd ∈ modifiers)),
    (bool_decide (Key.ctrl ∈ modifiers)),
    (bool_decide (Key.shift ∈ modifiers)); repeat split.
Qed.

Lemma modifier_flags_ctrl_shift :
  modifier_flags {[Key.ctrl; Key.shift]}
  = Z.lor Quartz.kCGEventFlagMaskControl Quartz.kCGEventFlagMaskShift.
Proof. vm_compute. reflexivity. Qed.

Lemma modifier_flags_alt_l :
  modifier_flags {[Key.alt_l]} = Quartz.kCGEventFlagMaskAlternate.
Proof. vm_compute. reflexivity. Qed.

Lemma modifier_flags_alt_r : modifier_flags {[Key.alt_r]} = 0.
Proof. vm_compute. reflexivity. Qed.

Lemma _event_space (os : Quartz.OS) (modifiers : gset Key.Member)
    (mapping : gmap string Z) (is_pressed : bool) :
  _event os (Key.value Key.space) modifiers mapping is_pressed
  = Return (Quartz.CGEventSetFlags
              (Quartz.CGEventCreateKeyboardEvent 0x31 is_pressed)
              (modifier_flags modifiers)).
Proof. by apply _event_ordinary. Qed.

(** C5, as stated, fails.  [Key.alt_l] is [Key.alt], so the set that holds
    [alt_l] alone holds the bare [alt], and the event synthesized for space
    has the alt bit set. *)
Lemma alt_l_counterexample :
  _event silent_os (Key.value Key.space) {[Key.alt_l]} ∅ true
  = Return (Quartz.CGEventSetFlags
              (Quartz.CGEventCreateKeyboardEvent 0x31 true)
              Quartz.kCGEventFlagMaskAlternate) /\
  Z.land
    (Quartz.flags
       (Quartz.CGEventSetFlags (Quartz.CGEventCreateKeyboardEvent 0x31 true)
                               Quartz.kCGEventFlagMaskAlternate))
    Quartz.kCGEventFlagMaskAlternate
  = Quartz.kCGEventFlagMaskAlternate.
Proof.
  split; [|reflexivity].
  by rewrite _event_space, modifier_flags_alt_l.
Qed.

(** C5, amended.  The flag word of every synthesized event has the alt,
    cmd, ctrl and shift bits of exactly those of the members [Key.alt],
    [Key.cmd], [Key.ctrl] and [Key.shift] that are in the modifier set, and
    no other bit.  Space with [{ctrl, shift}] has exactly the ctrl and shift
    bits.  With [{alt_l}] the alt bit is set, [alt_l] being an alias of
    [alt]; with [{alt_r}], a member of its own, it is not. *)
Theorem modifier_chord (os : Quartz.OS) (mapping : gmap string Z)
    (is_pressed : bool) :
  (forall (self : KeyCode) (modifiers : gset Key.Member)
          (event : Quartz.CGEvent),
     _event os self modifiers mapping is_pressed = Return event ->
     let bit (m : Key.Member) (mask : Z) :=
       if bool_decide (m ∈ modifiers) then mask else 0 in
     Z.land (Quartz.flags event) Quartz.kCGEventFlagMaskAlternate
     = bit Key.alt Quartz.kCGEventFlagMaskAlternate /\
     Z.land (Quartz.flags event) Quartz.kCGEventFlagMaskCommand
     = bit Key.cmd Quartz.kCGEventFlagMaskCommand /\
     Z.land (Quartz.flags event) Quartz.kCGEventFlagMaskControl
     = bit Key.ctrl Quartz.kCGEventFlagMaskControl /\
     Z.land (Quartz.flags event) Quartz.kCGEventFlagMaskShift
     = bit Key.shift Quartz.kCGEventFlagMaskShift /\
     Z.land (Quartz.flags event) (Z.lnot modifier_masks) = 0) /\
  _event os (Key.value Key.space) {[Key.ctrl; Key.shift]} mapping is_pressed
  = Return (Quartz.CGEventSetFlags
              (Quartz.CGEventCreateKeyboardEvent 0x31 is_pressed)
              (Z.lor Quartz.kCGEventFlagMaskControl
                     Quartz.kCGEventFlagMaskShift)) /\
  _event os (Key.value Key.space) {[Key.alt_l]} mapping is_pressed
  = Return (Quartz.CGEventSetFlags
              (Quartz.CGEventCreateKeyboardEvent 0x31 is_pressed)
              Quartz.kCGEventFlagMaskAlternate) /\
  _event os (Key.value Key.space) {[Key.alt_r]} mapping is_pressed
  = Return (Quartz.CGEventSetFlags
              (Quartz.CGEventCreateKeyboardEvent 0x31 is_pressed) 0).
Proof.
  split; [|split; [|split]].
  - intros self modifiers event Hevent.
    rewrite (_event_flags _ _ _ _ _ _ Hevent).
    apply modifier_flags_bits.
  - by rewrite _event_space, modifier_flags_ctrl_shift.
  - by rewrite _event_space, modifier_flags_alt_l.
  - by rewrite _event_space, modifier_flags_alt_r.
Qed.

Lemma modifier_chord_witness :
  _event silent_os (Key.value Key.space) {[Key.ctrl; Key.shift]} ∅ true
  = Return (Quartz.CGEventSetFlags
              (Quartz.CGEventCreateKeyboardEvent 0x31 true)
              (Z.lor Quartz.kCGEventFlagMaskControl
                     Quartz.kCGEventFlagMaskShift)) /\
  Z.land (Z.lor Quartz.kCGEventFlagMaskControl Quartz.kCGEventFlagMaskShift)
         (Z.lnot modifier_masks) = 0.
Proof.
  pose proof (modifier_chord silent_os ∅ true) as (Hbits & Hspace & _).
  split; [exact Hspace|].
  exact (proj2 (proj2 (proj2 (proj2 (Hbits _ _ _ Hspace))))).
Defined.

(** *** The scan code of a synthesized event *)

(** A virtual key other than 0 is the scan code. *)
Lemma resolve_vk_own (self : KeyCode) (mapping : gmap string Z) (v : Z) :
  vk self = Some v -> v <> 0 -> resolve_vk self mapping = Some v.
Proof.
  intros Hvk Hv. unfold resolve_vk, truthy. rewrite Hvk.
  by rewrite (proj2 (Z.eqb_neq _ _) Hv).
Qed.

(** Without a virtual key the layout mapping is asked for the character. *)
Lemma resolve_vk_absent (self : KeyCode) (mapping : gmap string Z) :
  vk self = None -> resolve_vk self mapping = mapping_get mapping (char self).
Proof. intros Hvk. unfold resolve_vk. by rewrite Hvk. Qed.

(** An ordinary event has the resolved scan code, or 0, and carries the
    character as its payload when no scan code was resolved. *)
Lemma _event_unresolved (os : Quartz.OS) (self : KeyCode)
    (modifiers : gset Key.Member) (mapping : gmap string Z)
    (is_pressed : bool) (c : string) :
  _is_media self <> Some true ->
  resolve_vk self mapping = None -> char self = Some c ->
  exists event,
    _event os self modifiers mapping is_pressed = Return event /\
    Quartz.keycode event = 0 /\
    Quartz.unicode_string event = Some c.
Proof.
  intros Hmedia Hvk Hchar. unfold _event.
  rewrite bool_decide_eq_false_2, Hvk, Hchar by done.
  eexists. split; [reflexivity|]. split; [reflexivity|].
  cbn. f_equal. clear. induction c as [|a c IH]; [done|].
  cbn. by rewrite IH.
Qed.

(** C8, evaluated.  The key code the listener reports for the key with
    virtual key 0, [from_char "a" (Some 0)], has its virtual key present,
    and still the synthesizer asks the layout mapping: under a mapping that
    has the character at scan code 12 the event has scan code 12, and under
    one that lacks the character the event carries the character as payload.
    [self.vk or ...] takes 0 for absent. *)
Theorem zero_virtual_key (os : Quartz.OS) :
  vk (from_char "a" (Some 0)) = Some 0 /\
  _event os (from_char "a" (Some 0)) ∅ {["a"%string := 12]} true
  = Return (Quartz.CGEventSetFlags
              (Quartz.CGEventCreateKeyboardEvent 12 true) 0) /\
  _event os (from_char "a" (Some 0)) ∅ ∅ true
  = Return (Quartz.CGEventKeyboardSetUnicodeString
              (Quartz.CGEventSetFlags
                 (Quartz.CGEventCreateKeyboardEvent 0 true) 0)
              1 "a").
Proof. repeat split. Qed.

(** * Further properties *)

(** ** Round trips *)

(** X1.  The round trip holds for both polarities and under every modifier
    set: the event the controller synthesizes for a name of [Key] is
    interpreted as one callback of the same polarity for the same member,
    and the listener remembers the flags of the modifier set. *)
Theorem round_trip_modifiers (os : Quartz.OS) (SYMBOLS : gmap Z string)
    (self : Listener.t) (modifiers : gset Key.Member)
    (mapping : gmap string Z) (is_pressed : bool)
    (n : string) (key : Key.Member) :
  Key.getattr n = Some key ->
  exists event,
    Controller._handle os modifiers mapping (Named key) is_pressed
    = Return event /\
    Listener._handle os SYMBOLS self (Quartz.CGEventGetType event) event
    = Return ([(if is_pressed then on_press else on_release)
                 (Some (Named key))],
              {| Listener._flags := modifier_flags modifiers |}).
Proof.
  intros Hok%member_ok_getattr%member_ok_spec.
  destruct Hok as (v & Hvk & Htable & [[Hmedia Hv]|[Hmedia Hv]]).
  - eexists. split.
    { unfold Controller._handle. apply (_event_ordinary _ _ _ _ _ v); [done..|].
      by rewrite Hmedia. }
    unfold Listener._handle.
    rewrite (_event_to_key_special _ _ _ key).
    + by destruct is_pressed.
    + rewrite Hmedia in Htable. destruct is_pressed; exact Htable.
  - destruct (_event_media os (Key.value key) modifiers mapping is_pressed v
                Hvk Hmedia)
      as (event & Hevent & Htype & Hsub & Hdata & _ & Hflags & _).
    exists event. split; [exact Hevent|].
    unfold Quartz.CGEventGetType. rewrite Htype.
    rewrite _handle_system_defined by done.
    rewrite Hflags, Hdata. unfold media_callbacks.
    rewrite media_data1_high, media_data1_low by done.
    rewrite <- Hmedia, Htable. by destruct is_pressed.
Qed.

Lemma round_trip_modifiers_witness :
  Key.getattr "shift_r" = Some Key.shift_r /\
  exists event,
    Controller._handle silent_os {[Key.ctrl]} ∅ (Named Key.shift_r) false
    = Return event /\
    Listener._handle silent_os ∅ Listener.__init__
      (Quartz.CGEventGetType event) event
    = Return ([on_release (Some (Named Key.shift_r))],
              {| Listener._flags := modifier_flags {[Key.ctrl]} |}).
Proof.
  split; [reflexivity|].
  apply (round_trip_modifiers silent_os ∅ Listener.__init__ {[Key.ctrl]} ∅
           false "shift_r" Key.shift_r).
  reflexivity.
Defined.

(** ** The class and its decode table *)

Lemma members_at_their_pair :
  forallb (fun m => bool_decide
             (Listener._SPECIAL_KEYS
                !! (vk (Key.value m), _is_media (Key.value m)) = Some m))
          Key.members = true.
Proof. vm_compute. reflexivity. Qed.

(** X2.  The decode table is the inverse of the map from the members of
    [Key] to their pairs: a pair is mapped to a member exactly when the
    iteration over [Key] yields that member and the pair is the member's
    own.  No member is lost to another with the same pair. *)
Theorem _SPECIAL_KEYS_inverse (p : option Z * option bool)
    (m : Key.Member) :
  Listener._SPECIAL_KEYS !! p = Some m <->
  m ∈ Key.members /\ (vk (Key.value m), _is_media (Key.value m)) = p.
Proof.
  split.
  - intros Hp. apply _SPECIAL_KEYS_sound in Hp as [Hin ->]. by split.
  - intros [Hin%list_elem_of_In <-].
    pose proof members_at_their_pair as Hall.
    rewrite forallb_forall in Hall. specialize (Hall m Hin).
    by apply bool_decide_eq_true in Hall.
Qed.

Lemma body_bound :
  forallb (fun a : string * KeyCode =>
             match Key.getattr a.1 with
             | Some m =>
                 bool_decide (Key.value m = a.2)
                 && bool_decide (m ∈ Key.members)
             | None => false
             end)
          Key.body = true.
Proof. vm_compute. reflexivity. Qed.

(** X3.  Every name assigned in the body of [Key] is an attribute of the
    class: it is bound to a member that the iteration over [Key] yields and
    whose value is the key code assigned to the name, also when the name is
    an alias. *)
Theorem Key_attribute (n : string) (v : KeyCode) :
  In (n, v) Key.body ->
  exists m, Key.getattr n = Some m /\ Key.value m = v /\ m ∈ Key.members.
Proof.
  intros Hin. pose proof body_bound as Hall.
  rewrite forallb_forall in Hall. specialize (Hall _ Hin).
  cbv beta in Hall. change ((n, v).1) with n in Hall.
  change ((n, v).2) with v in Hall.
  destruct (Key.getattr n) as [m|]; [|discriminate].
  apply andb_true_iff in Hall as [Hvalue Hmember].
  apply bool_decide_eq_true in Hvalue, Hmember. by exists m.
Qed.

Lemma Key_attribute_witness :
  In ("alt_gr"%string, Key.vk_ 0x3D) Key.body /\
  exists m, Key.getattr "alt_gr" = Some m /\ Key.value m = Key.vk_ 0x3D /\
            m ∈ Key.members.
Proof.
  assert (In ("alt_gr"%string, Key.vk_ 0x3D) Key.body) as Hin
    by (do 3 right; left; reflexivity).
  split; [exact Hin|].
  exact (Key_attribute "alt_gr" (Key.vk_ 0x3D) Hin).
Defined.

(** ** What the listener reports *)

(** The key code behind a reported key, as [Controller._handle] takes it:
    the value of a member, a plain key code as it is. *)
Definition key_code (key : KeyVal) : KeyCode :=
  match key with
  | Named m => Key.value m
  | Generic k => k
  end.

(** X4.  Whatever [_event_to_key] returns carries the scan code of the
    event as its virtual key: a member of [Key], a character key code, a
    symbol key code or a bare key code. *)
Theorem reported_scan_code (os : Quartz.OS) (SYMBOLS : gmap Z string)
    (event : Quartz.CGEvent) (key : KeyVal) :
  Listener._event_to_key os SYMBOLS event = Return key ->
  vk (key_code key) = Some (Quartz.keycode event).
Proof.
  destruct key as [m|k].
  - intros Hkey. apply _event_to_key_named in Hkey.
    apply _SPECIAL_KEYS_sound in Hkey as [_ Hpair].
    injection Hpair as Hv _. cbn [key_code]. by rewrite <- Hv.
  - unfold Listener._event_to_key.
    unfold Quartz.CGEventGetKeycode, Quartz.CGEventGetType.
    destruct (Listener._SPECIAL_KEYS !! _); [discriminate|].
    cbn [key_code]. intros Hkey.
    destruct (Quartz.CGEventKeyboardGetUnicodeString os event)
      as [length chars].
    destruct (SYMBOLS !! _); [destruct (negb _ && truthy _)|];
      try destruct (0 <? length); by injection Hkey as <-.
Qed.

Lemma reported_scan_code_witness :
  Listener._event_to_key silent_os ∅ line_feed_event
  = Return (Generic (from_char line_feed (Some 0))) /\
  vk (key_code (Generic (from_char line_feed (Some 0))))
  = Some (Quartz.keycode line_feed_event).
Proof.
  assert (Listener._event_to_key silent_os ∅ line_feed_event
          = Return (Generic (from_char line_feed (Some 0)))) as Hkey.
  { rewrite _event_to_key_chars; [reflexivity|apply _SPECIAL_KEYS_0|].
    right. left. apply lookup_empty. }
  split; [exact Hkey|].
  exact (reported_scan_code silent_os ∅ line_feed_event _ Hkey).
Defined.

(** X5.  The two channels do not mix: a member of [Key] that
    [_event_to_key] returns for a system-defined event is a media key, and
    one it returns for any other event is not.  So a keyboard event with
    scan code 16 is never taken for the play key. *)
Theorem resolved_channel (os : Quartz.OS) (SYMBOLS : gmap Z string)
    (event : Quartz.CGEvent) (m : Key.Member) :
  Listener._event_to_key os SYMBOLS event = Return (Named m) ->
  (Quartz.type event = Quartz.NSSystemDefined ->
   _is_media (Key.value m) = Some true) /\
  (Quartz.type event <> Quartz.NSSystemDefined ->
   _is_media (Key.value m) = None).
Proof.
  intros Hkey. apply _event_to_key_named in Hkey.
  apply _SPECIAL_KEYS_sound in Hkey as [_ Hpair].
  injection Hpair as _ Hmedia. split; intros Htype.
  - by rewrite bool_decide_eq_true_2 in Hmedia.
  - by rewrite bool_decide_eq_false_2 in Hmedia.
Qed.

Lemma resolved_channel_witness :
  Listener._event_to_key silent_os ∅ caps_lock_event
  = Return (Named Key.caps_lock) /\
  (Quartz.type caps_lock_event = Quartz.NSSystemDefined ->
   _is_media (Key.value Key.caps_lock) = Some true) /\
  (Quartz.type caps_lock_event <> Quartz.NSSystemDefined ->
   _is_media (Key.value Key.caps_lock) = None).
Proof.
  assert (Listener._event_to_key silent_os ∅ caps_lock_event
          = Return (Named Key.caps_lock)) as Hkey
    by (apply _event_to_key_special, _SPECIAL_KEYS_caps_lock).
  split; [exact Hkey|].
  exact (resolved_channel silent_os ∅ caps_lock_event _ Hkey).
Defined.

(** The codes of [hidsystem/ev_keymap.h] that [Key] binds to a media key:
    all of 0..23 but caps lock, help and the two arrow keys. *)
Definition media_codes : list Z :=
  [ NX_KEYTYPE_SOUND_UP; NX_KEYTYPE_SOUND_DOWN; NX_KEYTYPE_BRIGHTNESS_UP;
    NX_KEYTYPE_BRIGHTNESS_DOWN; NX_POWER_KEY; NX_KEYTYPE_MUTE;
    NX_KEYTYPE_NUM_LOCK; NX_KEYTYPE_CONTRAST_UP; NX_KEYTYPE_CONTRAST_DOWN;
    NX_KEYTYPE_LAUNCH_PANEL; NX_KEYTYPE_EJECT; NX_KEYTYPE_VIDMIRROR;
    NX_KEYTYPE_PLAY; NX_KEYTYPE_NEXT; NX_KEYTYPE_PREVIOUS; NX_KEYTYPE_FAST;
    NX_KEYTYPE_REWIND; NX_KEYTYPE_ILLUMINATION_UP;
    NX_KEYTYPE_ILLUMINATION_DOWN; NX_KEYTYPE_ILLUMINATION_TOGGLE ].

Lemma members_media_codes :
  forallb (fun m => match _is_media (Key.value m), vk (Key.value m) with
                    | Some true, Some v => bool_decide (v ∈ media_codes)
                    | _, _ => true
                    end)
          Key.members = true.
Proof. vm_compute. reflexivity. Qed.

Lemma media_codes_listed :
  forallb (fun v => bool_decide
             (is_Some (Listener._SPECIAL_KEYS !! (Some v, Some true))))
          media_codes = true.
Proof. vm_compute. reflexivity. Qed.

Lemma _SPECIAL_KEYS_media (v : Z) :
  is_Some (Listener._SPECIAL_KEYS !! (Some v, Some true)) <->
  v ∈ media_codes.
Proof.
  split.
  - intros [m Hm]. apply _SPECIAL_KEYS_sound in Hm as [Hin Hpair].
    apply list_elem_of_In in Hin.
    pose proof members_media_codes as Hall.
    rewrite forallb_forall in Hall. specialize (Hall m Hin).
    cbv beta in Hall. injection Hpair as Hv Hmedia.
    rewrite <- Hv, <- Hmedia in Hall. by apply bool_decide_eq_true in Hall.
  - intros Hin%list_elem_of_In.
    pose proof media_codes_listed as Hall.
    rewrite forallb_forall in Hall. specialize (Hall v Hin).
    by apply bool_decide_eq_true in Hall.
Qed.

(** X6.  A system-defined event of the media-keys subtype makes a callback
    exactly when the high 16 bits of its [data1] are one of the twenty codes
    that [Key] binds to a media key; for every other code, 4, 5, 8, 9 and
    all above 23 among them, it is passed over in silence. *)
Theorem media_codes_decoded (os : Quartz.OS) (SYMBOLS : gmap Z string)
    (self : Listener.t) (event : Quartz.CGEvent) :
  Quartz.type event = Quartz.NSSystemDefined ->
  Quartz.subtype event = kSystemDefinedEventMediaKeysSubtype ->
  exists callbacks,
    Listener._handle os SYMBOLS self (Quartz.CGEventGetType event) event
    = Return (callbacks, {| Listener._flags := Quartz.flags event |}) /\
    (callbacks = [] <-> high_16_bits (Quartz.data1 event) ∉ media_codes).
Proof.
  intros Htype Hsub. exists (media_callbacks (Quartz.data1 event)). split.
  - unfold Quartz.CGEventGetType. rewrite Htype.
    by apply _handle_system_defined.
  - rewrite <- _SPECIAL_KEYS_media. unfold media_callbacks.
    destruct (Listener._SPECIAL_KEYS !! _) as [special|].
    + split; [by case_bool_decide|]. intros Hnot. destruct Hnot. by eexists.
    + split; [|done]. intros _ [m Hm]. discriminate.
Qed.

Lemma media_codes_decoded_witness :
  Quartz.type (play_event 0x0a) = Quartz.NSSystemDefined /\
  Quartz.subtype (play_event 0x0a) = kSystemDefinedEventMediaKeysSubtype /\
  exists callbacks,
    Listener._handle silent_os ∅ Listener.__init__
      (Quartz.CGEventGetType (play_event 0x0a)) (play_event 0x0a)
    = Return (callbacks,
              {| Listener._flags := Quartz.flags (play_event 0x0a) |}) /\
    (callbacks = [] <->
     high_16_bits (Quartz.data1 (play_event 0x0a)) ∉ media_codes).
Proof.
  split; [reflexivity|]. split; [reflexivity|].
  apply (media_codes_decoded silent_os ∅ Listener.__init__ (play_event 0x0a));
    reflexivity.
Defined.

(** ** Modifier changes *)

Lemma _MODIFIER_FLAGS_caps_lock :
  Listener._MODIFIER_FLAGS !! Key.caps_lock = None.
Proof. vm_compute. reflexivity. Qed.

Lemma _MODIFIER_FLAGS_shift_r :
  Listener._MODIFIER_FLAGS !! Key.shift_r = Some Quartz.kCGEventFlagMaskShift.
Proof. vm_compute. reflexivity. Qed.

(** The last branch of [_handle]. *)
Lemma _handle_callbacks_flags (key : option KeyVal) (event_type : Z)
    (event : Quartz.CGEvent) :
  event_type <> Quartz.kCGEventKeyDown ->
  event_type <> Quartz.kCGEventKeyUp ->
  key <> Some (Named Key.caps_lock) ->
  event_type <> Quartz.NSSystemDefined ->
  Listener._handle_callbacks key event_type event
  = [if truthy (Z.land (Quartz.flags event)
                       (Listener._MODIFIER_FLAGS_get key))
     then on_press key else on_release key].
Proof.
  intros Hdown Hup Hcaps Hsys. unfold Listener._handle_callbacks.
  rewrite (bool_decide_eq_false_2 _ Hdown), (bool_decide_eq_false_2 _ Hup),
    (bool_decide_eq_false_2 _ Hcaps), (bool_decide_eq_false_2 _ Hsys).
  unfold Quartz.CGEventGetFlags.
  destruct (truthy _); reflexivity.
Qed.

(** X7.  An event that is not key-down, key-up or system-defined and is
    resolved to a key with an entry in [_MODIFIER_FLAGS] is reported as a
    press when the flags of the event have a bit of the key's mask, and as
    a release when they have none.  Nothing but the flags of this one event
    decides: the flags the listener remembered play no part. *)
Theorem modifier_change (os : Quartz.OS) (SYMBOLS : gmap Z string)
    (self : Listener.t) (event_type : Z) (event : Quartz.CGEvent)
    (m : Key.Member) (mask : Z) :
  event_type <> Quartz.kCGEventKeyDown ->
  event_type <> Quartz.kCGEventKeyUp ->
  event_type <> Quartz.NSSystemDefined ->
  Listener._event_to_key os SYMBOLS event = Return (Named m) ->
  Listener._MODIFIER_FLAGS !! m = Some mask ->
  Listener._handle os SYMBOLS self event_type event
  = Return ([if bool_decide (Z.land (Quartz.flags event) mask = 0)
             then on_release (Some (Named m))
             else on_press (Some (Named m))],
            {| Listener._flags := Quartz.flags event |}).
Proof.
  intros Hdown Hup Hsys Hkey Hmask.
  assert (Some (Named m) <> Some (Named Key.caps_lock)) as Hcaps.
  { intros [= ->]. rewrite _MODIFIER_FLAGS_caps_lock in Hmask.
    discriminate Hmask. }
  unfold Listener._handle. rewrite Hkey. clear Hkey.
  rewrite _handle_callbacks_flags by assumption.
  unfold Listener._MODIFIER_FLAGS_get.
  rewrite Hmask. cbn [default from_option id]. unfold truthy.
  case_bool_decide as Hland.
  - rewrite Hland. reflexivity.
  - rewrite (proj2 (Z.eqb_neq _ _) Hland). reflexivity.
Qed.

(** The right shift key goes up while the left one is still held: the
    shift bit is still set. *)
Definition shift_r_event : Quartz.CGEvent :=
  {| Quartz.type := Quartz.kCGEventFlagsChanged;
     Quartz.keycode := 0x3C;
     Quartz.flags := Quartz.kCGEventFlagMaskShift;
     Quartz.unicode_string := None;
     Quartz.location := (0, 0); Quartz.timestamp := 0;
     Quartz.windowNumber := 0; Quartz.context := 0;
     Quartz.subtype := 0; Quartz.data1 := 0; Quartz.data2 := 0 |}.

Lemma _SPECIAL_KEYS_shift_r :
  Listener._SPECIAL_KEYS !! (Some 0x3C, None) = Some Key.shift_r.
Proof. vm_compute. reflexivity. Qed.

Lemma shift_r_event_key :
  Listener._event_to_key silent_os ∅ shift_r_event
  = Return (Named Key.shift_r).
Proof. apply _event_to_key_special, _SPECIAL_KEYS_shift_r. Qed.

Lemma modifier_change_witness :
  Quartz.kCGEventFlagsChanged <> Quartz.kCGEventKeyDown /\
  Quartz.kCGEventFlagsChanged <> Quartz.kCGEventKeyUp /\
  Quartz.kCGEventFlagsChanged <> Quartz.NSSystemDefined /\
  Listener._event_to_key silent_os ∅ shift_r_event
  = Return (Named Key.shift_r) /\
  Listener._MODIFIER_FLAGS !! Key.shift_r
  = Some Quartz.kCGEventFlagMaskShift /\
  Listener._handle silent_os ∅ Listener.__init__
    Quartz.kCGEventFlagsChanged shift_r_event
  = Return ([on_press (Some (Named Key.shift_r))],
            {| Listener._flags := Quartz.kCGEventFlagMaskShift |}).
Proof.
  split; [discriminate|]. split; [discriminate|]. split; [discriminate|].
  split; [exact shift_r_event_key|].
  split; [exact _MODIFIER_FLAGS_shift_r|].
  exact (modifier_change silent_os ∅ Listener.__init__
           Quartz.kCGEventFlagsChanged shift_r_event Key.shift_r
           Quartz.kCGEventFlagMaskShift
           ltac:(discriminate) ltac:(discriminate) ltac:(discriminate)
           shift_r_event_key _MODIFIER_FLAGS_shift_r).
Defined.

(** ** Events that make no callback *)

(** X8.  A system-defined event whose subtype is not the media-keys subtype
    makes no callback at all; its flags are remembered all the same. *)
Theorem other_subtype_ignored (os : Quartz.OS) (SYMBOLS : gmap Z string)
    (self : Listener.t) (event : Quartz.CGEvent) :
  Quartz.type event = Quartz.NSSystemDefined ->
  Quartz.subtype event <> kSystemDefinedEventMediaKeysSubtype ->
  Listener._handle os SYMBOLS self (Quartz.CGEventGetType event) event
  = Return ([], {| Listener._flags := Quartz.flags event |}).
Proof.
  intros Htype Hsub. unfold Listener._handle.
  pose proof (_event_to_key_system_defined os SYMBOLS event Htype) as Hcaps.
  destruct (_event_to_key_returns os SYMBOLS event) as [key Hkey].
  rewrite Hkey in Hcaps |- *. clear Hkey.
  assert (Some key <> Some (Named Key.caps_lock)) as Hkey
    by (intros [= ->]; apply Hcaps; reflexivity).
  unfold Quartz.CGEventGetType. rewrite Htype.
  unfold Listener._handle_callbacks.
  rewrite (bool_decide_eq_false_2 (_ = Quartz.kCGEventKeyDown))
    by (intros H; discriminate H).
  rewrite (bool_decide_eq_false_2 (_ = Quartz.kCGEventKeyUp))
    by (intros H; discriminate H).
  rewrite (bool_decide_eq_false_2 _ Hkey).
  rewrite (bool_decide_eq_true_2 (_ = Quartz.NSSystemDefined)) by reflexivity.
  rewrite (bool_decide_eq_false_2 _ Hsub). reflexivity.
Qed.

(** A system-defined event of another subtype. *)
Definition power_event : Quartz.CGEvent :=
  {| Quartz.type := Quartz.NSSystemDefined;
     Quartz.keycode := 0;
     Quartz.flags := 0;
     Quartz.unicode_string := None;
     Quartz.location := (0, 0); Quartz.timestamp := 0;
     Quartz.windowNumber := 0; Quartz.context := 0;
     Quartz.subtype := 1;
     Quartz.data1 := Z.shiftl 0x10 16;
     Quartz.data2 := -1 |}.

Lemma other_subtype_ignored_witness :
  Quartz.type power_event = Quartz.NSSystemDefined /\
  Quartz.subtype power_event <> kSystemDefinedEventMediaKeysSubtype /\
  Listener._handle silent_os ∅ Listener.__init__
    (Quartz.CGEventGetType power_event) power_event
  = Return ([], {| Listener._flags := Quartz.flags power_event |}).
Proof.
  split; [reflexivity|]. split; [discriminate|].
  apply (other_subtype_ignored silent_os ∅ Listener.__init__ power_event);
    [reflexivity|discriminate].
Defined.

(** ** Character key codes *)

Lemma substring_whole (s : string) :
  String.substring 0 (String.length s) s = s.
Proof. induction s as [|a s IH]; [reflexivity|]. cbn. by rewrite IH. Qed.

Lemma modifier_flags_control (modifiers : gset Key.Member) :
  Key.ctrl ∉ modifiers ->
  Z.land (modifier_flags modifiers) Quartz.kCGEventFlagMaskControl = 0.
Proof.
  intros Hctrl.
  destruct (modifier_flags_bits modifiers) as (_ & _ & Hbit & _).
  rewrite Hbit. by rewrite bool_decide_eq_false_2.
Qed.

(** X9.  A character key code does not come back as it went: for a
    character that the layout mapping lacks, the event the controller
    synthesizes is interpreted as one callback of the same polarity for the
    character key code of the same character, which now carries scan code 0.
    The symbol table must not step in: the character is printable, or the
    table has no entry for scan code 0, or Control is not in the modifier
    set. *)
Theorem character_round_trip (os : Quartz.OS) (SYMBOLS : gmap Z string)
    (self : Listener.t) (modifiers : gset Key.Member)
    (mapping : gmap string Z) (is_pressed : bool) (c : string) :
  c <> ""%string ->
  mapping !! c = None ->
  isprintable c = true \/ SYMBOLS !! 0 = None \/ Key.ctrl ∉ modifiers ->
  exists event,
    Controller._handle os modifiers mapping (Generic (from_char c None))
      is_pressed
    = Return event /\
    Listener._handle os SYMBOLS self (Quartz.CGEventGetType event) event
    = Return ([(if is_pressed then on_press else on_release)
                 (Some (Generic (from_char c (Some 0))))],
              {| Listener._flags := modifier_flags modifiers |}).
Proof.
  intros Hc Hmapping Hsymbol.
  set (event := Quartz.CGEventKeyboardSetUnicodeString
                  (Quartz.CGEventSetFlags
                     (Quartz.CGEventCreateKeyboardEvent 0 is_pressed)
                     (modifier_flags modifiers))
                  (String.length c) c).
  exists event. split.
  { unfold Controller._handle, _event, resolve_vk. cbn. by rewrite Hmapping. }
  assert ((Quartz.CGEventKeyboardGetUnicodeString os event).2 = c) as Hchars.
  { unfold Quartz.CGEventKeyboardGetUnicodeString. cbn.
    apply substring_whole. }
  assert (Listener._event_to_key os SYMBOLS event
          = Return (Generic (from_char c (Some 0)))) as Hkey.
  { rewrite _event_to_key_chars.
    - cbv zeta. rewrite Hchars. by rewrite bool_decide_eq_false_2.
    - replace (bool_decide (Quartz.type event = Quartz.NSSystemDefined))
        with false by (by destruct is_pressed).
      apply _SPECIAL_KEYS_0.
    - rewrite Hchars. destruct Hsymbol as [Hp|[Hs|Hctrl]]; [by left| |].
      + right. left. exact Hs.
      + right. right. by apply modifier_flags_control. }
  unfold Listener._handle. rewrite Hkey. clear Hkey.
  destruct is_pressed; reflexivity.
Qed.

Lemma character_round_trip_witness :
  line_feed <> ""%string /\
  (∅ : gmap string Z) !! line_feed = None /\
  (isprintable line_feed = true \/ (∅ : gmap Z string) !! 0 = None
   \/ Key.ctrl ∉ ({[Key.shift]} : gset Key.Member)) /\
  exists event,
    Controller._handle silent_os {[Key.shift]} ∅
      (Generic (from_char line_feed None)) true
    = Return event /\
    Listener._handle silent_os ∅ Listener.__init__
      (Quartz.CGEventGetType event) event
    = Return ([on_press (Some (Generic (from_char line_feed (Some 0))))],
              {| Listener._flags := modifier_flags {[Key.shift]} |}).
Proof.
  split; [discriminate|]. split; [reflexivity|].
  split; [right; left; reflexivity|].
  apply (character_round_trip silent_os ∅ Listener.__init__ {[Key.shift]} ∅
           true line_feed);
    [discriminate | reflexivity | right; left; reflexivity].
Defined.

(** ** The synthesizer's flags and failures *)

Lemma bool_decide_elem_of_union (m : Key.Member) (A B : gset Key.Member) :
  bool_decide (m ∈ A ∪ B) = bool_decide (m ∈ A) || bool_decide (m ∈ B).
Proof.
  rewrite <- bool_decide_or. apply bool_decide_ext, elem_of_union.
Qed.

Lemma modifier_flags_of_union (A B : gset Key.Member) :
  modifier_flags (A ∪ B) = Z.lor (modifier_flags A) (modifier_flags B).
Proof.
  unfold modifier_flags. rewrite !bool_decide_elem_of_union.
  destruct (bool_decide (Key.alt ∈ A)), (bool_decide (Key.alt ∈ B)),
    (bool_decide (Key.cmd ∈ A)), (bool_decide (Key.cmd ∈ B)),
    (bool_decide (Key.ctrl ∈ A)), (bool_decide (Key.ctrl ∈ B)),
    (bool_decide (Key.shift ∈ A)), (bool_decide (Key.shift ∈ B));
    reflexivity.
Qed.

(** X10.  Modifier sets add up: the flag word of the event synthesized
    under the union of two modifier sets is the flag word under the one
    or-ed with the flag word under the other. *)
Theorem union_of_modifiers (os : Quartz.OS) (self : KeyCode)
    (A B : gset Key.Member) (mapping : gmap string Z) (is_pressed : bool)
    (event_A event_B event : Quartz.CGEvent) :
  _event os self A mapping is_pressed = Return event_A ->
  _event os self B mapping is_pressed = Return event_B ->
  _event os self (A ∪ B) mapping is_pressed = Return event ->
  Quartz.flags event = Z.lor (Quartz.flags event_A) (Quartz.flags event_B).
Proof.
  intros HA HB HAB.
  rewrite (_event_flags _ _ _ _ _ _ HA), (_event_flags _ _ _ _ _ _ HB),
    (_event_flags _ _ _ _ _ _ HAB).
  apply modifier_flags_of_union.
Qed.

Lemma union_of_modifiers_witness :
  _event silent_os (Key.value Key.space) {[Key.ctrl]} ∅ true
  = Return (Quartz.CGEventSetFlags
              (Quartz.CGEventCreateKeyboardEvent 0x31 true)
              (modifier_flags {[Key.ctrl]})) /\
  _event silent_os (Key.value Key.space) {[Key.shift]} ∅ true
  = Return (Quartz.CGEventSetFlags
              (Quartz.CGEventCreateKeyboardEvent 0x31 true)
              (modifier_flags {[Key.shift]})) /\
  _event silent_os (Key.value Key.space) ({[Key.ctrl]} ∪ {[Key.shift]}) ∅ true
  = Return (Quartz.CGEventSetFlags
              (Quartz.CGEventCreateKeyboardEvent 0x31 true)
              (modifier_flags ({[Key.ctrl]} ∪ {[Key.shift]}))) /\
  Quartz.flags
    (Quartz.CGEventSetFlags (Quartz.CGEventCreateKeyboardEvent 0x31 true)
                            (modifier_flags ({[Key.ctrl]} ∪ {[Key.shift]})))
  = Z.lor
      (Quartz.flags
         (Quartz.CGEventSetFlags (Quartz.CGEventCreateKeyboardEvent 0x31 true)
                                 (modifier_flags {[Key.ctrl]})))
      (Quartz.flags
         (Quartz.CGEventSetFlags (Quartz.CGEventCreateKeyboardEvent 0x31 true)
                                 (modifier_flags {[Key.shift]}))).
Proof.
  split; [apply _event_space|]. split; [apply _event_space|].
  split; [apply _event_space|].
  exact (union_of_modifiers silent_os (Key.value Key.space)
           {[Key.ctrl]} {[Key.shift]} ∅ true _ _ _
           (_event_space silent_os {[Key.ctrl]} ∅ true)
           (_event_space silent_os {[Key.shift]} ∅ true)
           (_event_space silent_os ({[Key.ctrl]} ∪ {[Key.shift]}) ∅ true)).
Defined.

Lemma modifier_flags_other (m : Key.Member) (A : gset Key.Member) :
  m <> Key.alt -> m <> Key.cmd -> m <> Key.ctrl -> m <> Key.shift ->
  modifier_flags ({[m]} ∪ A) = modifier_flags A.
Proof.
  intros Halt Hcmd Hctrl Hshift.
  unfold modifier_flags. rewrite !bool_decide_elem_of_union.
  rewrite !(bool_decide_eq_false_2 (_ ∈ {[m]})); [reflexivity|..];
    rewrite elem_of_singleton; congruence.
Qed.

(** X11.  Only the four members [alt], [cmd], [ctrl] and [shift] count:
    adding any other key to the modifier set, a right-hand modifier such as
    [alt_r] or [shift_r] among them, leaves the synthesized event as it
    was. *)
Theorem other_modifier_ignored (os : Quartz.OS) (self : KeyCode)
    (m : Key.Member) (A : gset Key.Member) (mapping : gmap string Z)
    (is_pressed : bool) :
  m <> Key.alt -> m <> Key.cmd -> m <> Key.ctrl -> m <> Key.shift ->
  _event os self ({[m]} ∪ A) mapping is_pressed
  = _event os self A mapping is_pressed.
Proof.
  intros Halt Hcmd Hctrl Hshift. unfold _event.
  by rewrite modifier_flags_other.
Qed.

Lemma other_modifier_ignored_witness :
  Key.shift_r <> Key.alt /\ Key.shift_r <> Key.cmd /\
  Key.shift_r <> Key.ctrl /\ Key.shift_r <> Key.shift /\
  _event silent_os (Key.value Key.space) ({[Key.shift_r]} ∪ {[Key.cmd]}) ∅
    true
  = _event silent_os (Key.value Key.space) {[Key.cmd]} ∅ true.
Proof.
  repeat (split; [discriminate|]).
  apply (other_modifier_ignored silent_os (Key.value Key.space) Key.shift_r
           {[Key.cmd]} ∅ true); discriminate.
Defined.

Lemma _MODIFIER_FLAGS_get_bare :
  Listener._MODIFIER_FLAGS_get (Some (Named Key.alt))
  = Quartz.kCGEventFlagMaskAlternate /\
  Listener._MODIFIER_FLAGS_get (Some (Named Key.cmd))
  = Quartz.kCGEventFlagMaskCommand /\
  Listener._MODIFIER_FLAGS_get (Some (Named Key.ctrl))
  = Quartz.kCGEventFlagMaskControl /\
  Listener._MODIFIER_FLAGS_get (Some (Named Key.shift))
  = Quartz.kCGEventFlagMaskShift.
Proof. repeat split; vm_compute; reflexivity. Qed.

Lemma truthy_bit (P : Prop) `{Decision P} (mask : Z) :
  mask <> 0 -> truthy (if bool_decide P then mask else 0) = true <-> P.
Proof.
  intros Hmask. case_bool_decide as HP; split; intros H0.
  - exact HP.
  - unfold truthy. by rewrite (proj2 (Z.eqb_neq _ _) Hmask).
  - discriminate H0.
  - contradiction.
Qed.

(** X13.  The listener's test reads back what the synthesizer wrote: on a
    synthesized event, the flags and-ed with the [_MODIFIER_FLAGS] entry of
    [alt], [cmd], [ctrl] or [shift] are true exactly when that member
    was in the modifier set. *)
Theorem modifier_read_back (os : Quartz.OS) (self : KeyCode)
    (modifiers : gset Key.Member) (mapping : gmap string Z)
    (is_pressed : bool) (event : Quartz.CGEvent) (m : Key.Member) :
  _event os self modifiers mapping is_pressed = Return event ->
  m ∈ [Key.alt; Key.cmd; Key.ctrl; Key.shift] ->
  truthy (Z.land (Quartz.CGEventGetFlags event)
                 (Listener._MODIFIER_FLAGS_get (Some (Named m)))) = true
  <-> m ∈ modifiers.
Proof.
  intros Hevent Hm. unfold Quartz.CGEventGetFlags.
  rewrite (_event_flags _ _ _ _ _ _ Hevent). clear Hevent.
  destruct (modifier_flags_bits modifiers)
    as (Halt & Hcmd & Hctrl & Hshift & _).
  destruct _MODIFIER_FLAGS_get_bare as (Galt & Gcmd & Gctrl & Gshift).
  cbv zeta in Halt, Hcmd, Hctrl, Hshift.
  apply list_elem_of_In in Hm.
  destruct Hm as [<-|[<-|[<-|[<-|[]]]]].
  - rewrite Galt, Halt. apply truthy_bit. discriminate.
  - rewrite Gcmd, Hcmd. apply truthy_bit. discriminate.
  - rewrite Gctrl, Hctrl. apply truthy_bit. discriminate.
  - rewrite Gshift, Hshift. apply truthy_bit. discriminate.
Qed.

Lemma modifier_read_back_witness :
  _event silent_os (Key.value Key.space) {[Key.ctrl; Key.shift]} ∅ true
  = Return (Quartz.CGEventSetFlags
              (Quartz.CGEventCreateKeyboardEvent 0x31 true)
              (modifier_flags {[Key.ctrl; Key.shift]})) /\
  Key.ctrl ∈ [Key.alt; Key.cmd; Key.ctrl; Key.shift] /\
  (truthy (Z.land
             (Quartz.CGEventGetFlags
                (Quartz.CGEventSetFlags
                   (Quartz.CGEventCreateKeyboardEvent 0x31 true)
                   (modifier_flags {[Key.ctrl; Key.shift]})))
             (Listener._MODIFIER_FLAGS_get (Some (Named Key.ctrl)))) = true
   <-> Key.ctrl ∈ ({[Key.ctrl; Key.shift]} : gset Key.Member)).
Proof.
  assert (Key.ctrl ∈ [Key.alt; Key.cmd; Key.ctrl; Key.shift]) as Hin
    by (do 2 apply list_elem_of_further; apply list_elem_of_here).
  split; [apply _event_space|]. split; [exact Hin|].
  exact (modifier_read_back silent_os (Key.value Key.space)
           {[Key.ctrl; Key.shift]} ∅ true _ Key.ctrl
           (_event_space silent_os {[Key.ctrl; Key.shift]} ∅ true) Hin).
Defined.
